(** * Air Quality Index prediction app ([src/app.py]): model and properties

    The program is a Streamlit script: it reads an uploaded CSV with
    [pd.read_csv], loads a pickled model with [joblib.load], and, when the
    "Predict AQI" button is pressed, drops the column [AQI], calls
    [model.predict], stores the answer in the column [Predicted_AQI] of the
    uploaded table and offers the table for download as UTF-8 CSV.

    The script is embedded as a computation in a small monad that threads the
    script's store (the variable [data], which the script mutates in place) and
    the trace of calls made to Streamlit, joblib and the model, and that ends
    normally, by an uncaught Python exception, or by [st.stop()].

    The libraries the script calls are modelled as far as the script uses them:
    - Python [str] is a list of Unicode code points, [bytes] a list of byte
      values; [str.encode('utf-8')] and the decoding done by the CSV reader are
      the UTF-8 codec;
    - a pandas [DataFrame] is a row count (the length of its index) and an
      ordered list of named columns (row labels are not kept: the script
      writes with [index=False]); cells are Python integers, text or [NaN]
      (floating point values are not modelled);
    - [df[key] = values] follows [DataFrame.__setitem__] for a sequence of
      values: a length other than the row count raises [ValueError], except
      on a frame without rows, which takes the length of the sequence;
    - the model is any object with a [predict] method: a function from the
      features to a sequence of cells or to an exception;
    - [DataFrame.to_csv] writes with the [csv] module's minimal quoting and a
      line feed as line terminator (a POSIX host);
    - [pd.read_csv] tokenizes as the C parser does (quoted fields, line
      feeds and carriage returns, blank lines) and infers integer columns;
      every other column is held as text;
    - [st.write] of a table can raise: what Streamlit does with a table is
      a parameter of the run, as the upload, the button and the model file
      are. *)

From Stdlib Require Import String Ascii List ZArith NArith Lia Bool Arith.
From Stdlib Require Import Decimal DecimalString DecimalZ DecimalPos.
Import ListNotations.

Set Implicit Arguments.

(** ** Python text and bytes *)

Module Py.

(** A Python [str]: a sequence of code points. *)
Definition str := list N.

(** A Python [bytes] object: a sequence of values below 256. *)
Definition bytes := list N.

(** The code points of an ASCII literal of the script. *)
Definition lit (s : string) : str :=
  map N_of_ascii (list_ascii_of_string s).

Fixpoint str_eqb (a b : str) : bool :=
  match a, b with
  | [], [] => true
  | x :: a', y :: b' => N.eqb x y && str_eqb a' b'
  | _, _ => false
  end.

Definition str_in (a : str) (l : list str) : bool := existsb (str_eqb a) l.

(** [str(n)] for a Python integer. *)
Definition str_of_int (z : Z) : str :=
  lit (NilZero.string_of_int (Z.to_int z)).

Definition str_of_nat (n : nat) : str := str_of_int (Z.of_nat n).

(** The ASCII string with the given code points, when all are below 128. *)
Fixpoint ascii_string (s : str) : option string :=
  match s with
  | [] => Some EmptyString
  | c :: s' =>
      if N.ltb c 128 then option_map (String (ascii_of_N c)) (ascii_string s')
      else None
  end.

(** ** UTF-8

    [encode_utf8 s] is [s.encode('utf-8')]: it fails (Python raises
    [UnicodeEncodeError]) on a surrogate or on a value that is no code
    point.  [decode_utf8 b] is the strict decoder: it fails on overlong
    forms, surrogates, values above U+10FFFF, truncated sequences and
    stray continuation bytes. *)

Definition is_surrogate (c : N) : bool := (N.leb 55296 c && N.leb c 57343)%bool.

Definition encode_cp (c : N) : option bytes :=
  if N.ltb c 128 then Some [c]
  else if N.ltb c 2048 then Some [192 + c / 64; 128 + c mod 64]%N
  else if N.ltb c 65536 then
    if is_surrogate c then None
    else Some [224 + c / 4096; 128 + (c / 64) mod 64; 128 + c mod 64]%N
  else if N.ltb c 1114112 then
    Some [240 + c / 262144; 128 + (c / 4096) mod 64;
          128 + (c / 64) mod 64; 128 + c mod 64]%N
  else None.

Fixpoint encode_utf8 (s : str) : option bytes :=
  match s with
  | [] => Some []
  | c :: s' =>
      match encode_cp c, encode_utf8 s' with
      | Some b, Some bs => Some (b ++ bs)
      | _, _ => None
      end
  end.

(** A Unicode scalar value: a code point that UTF-8 can encode. *)
Definition scalar (c : N) : bool :=
  (N.ltb c 1114112 && negb (is_surrogate c))%bool.

Definition is_cont (b : N) : bool := (N.leb 128 b && N.ltb b 192)%bool.

Fixpoint decode_utf8 (b : bytes) : option str :=
  match b with
  | [] => Some []
  | b1 :: r1 =>
      if N.ltb b1 128 then option_map (cons b1) (decode_utf8 r1)
      else if N.ltb b1 194 then None
      else if N.ltb b1 224 then
        match r1 with
        | b2 :: r2 =>
            if is_cont b2
            then option_map (cons ((b1 - 192) * 64 + (b2 - 128))%N) (decode_utf8 r2)
            else None
        | _ => None
        end
      else if N.ltb b1 240 then
        match r1 with
        | b2 :: b3 :: r3 =>
            let c := ((b1 - 224) * 4096 + (b2 - 128) * 64 + (b3 - 128))%N in
            if (is_cont b2 && is_cont b3 && N.leb 2048 c && negb (is_surrogate c))%bool
            then option_map (cons c) (decode_utf8 r3)
            else None
        | _ => None
        end
      else if N.ltb b1 245 then
        match r1 with
        | b2 :: b3 :: b4 :: r4 =>
            let c := ((b1 - 240) * 262144 + (b2 - 128) * 4096
                      + (b3 - 128) * 64 + (b4 - 128))%N in
            if (is_cont b2 && is_cont b3 && is_cont b4
                && N.leb 65536 c && N.ltb c 1114112)%bool
            then option_map (cons c) (decode_utf8 r4)
            else None
        | _ => None
        end
      else None
  end.

End Py.

(** ** Python exceptions

    Only subclasses of [Exception] are represented: all of them are caught by
    [except Exception].  [str(e)] is kept as [exn_str]. *)

Inductive exn_class :=
| FileNotFoundError
| NameError
| ValueError
| KeyError
| UnicodeDecodeError
| UnicodeEncodeError
| EmptyDataError
| ParserError
| OtherException (name : string).

Record exn := mkExn { exn_cls : exn_class; exn_str : Py.str }.

Inductive result (A : Type) :=
| Ok (a : A)
| Err (e : exn).

Arguments Ok {A} a.
Arguments Err {A} e.

Definition is_FileNotFoundError (e : exn) : bool :=
  match exn_cls e with
  | FileNotFoundError => true
  | _ => false
  end.

(** ** The part of pandas the script uses *)

Module Pandas.

Import Py.

(** A cell: a Python integer, a text, or a missing value. *)
Inductive Cell :=
| VInt (z : Z)
| VStr (s : str)
| VNaN.

(** A frame with an index of length [index] and its columns in
    order.  Column labels can repeat in pandas, so the columns are an
    association list. *)
Record DataFrame := mkDF {
  index : nat;
  columns : list (str * list Cell)
}.

Definition column_names (df : DataFrame) : list str := map fst (columns df).

(** Every column has one cell per row. *)
Definition aligned (df : DataFrame) : Prop :=
  Forall (fun c => length (snd c) = index df) (columns df).

Definition is_int (c : Cell) : bool :=
  match c with
  | VInt _ => true
  | _ => false
  end.

(** The cells of the column labelled [name] (of the first one, if repeated). *)
Definition column (name : str) (df : DataFrame) : option (list Cell) :=
  option_map snd (find (fun c => str_eqb (fst c) name) (columns df)).

Definition has_column (name : str) (df : DataFrame) : bool :=
  str_in name (column_names df).

(** [df.drop(columns=labels, errors=...)]: a new frame without the columns
    whose label is listed.  With [errors='raise'] a listed label that the frame
    lacks raises [KeyError] (its message, cut here, starts with the missing
    labels); with [errors='ignore'] it is skipped. *)
Definition drop (labels : list str) (ignore : bool) (df : DataFrame)
  : result DataFrame :=
  if (ignore || forallb (fun l => has_column l df) labels)%bool
  then Ok (mkDF (index df)
             (filter (fun c => negb (str_in (fst c) labels)) (columns df)))
  else Err (mkExn KeyError (lit "not found in axis")).

(** [df.head(n)]: the first [n] rows. *)
Definition head (n : nat) (df : DataFrame) : DataFrame :=
  mkDF (Nat.min n (index df))
       (map (fun c => (fst c, firstn n (snd c))) (columns df)).

(** A frame without rows takes its index from the first non-empty list that
    is assigned to it ([DataFrame._ensure_valid_index]): the columns it has
    are reindexed and hold [NaN]. *)
Definition ensure_valid_index (values : list Cell) (df : DataFrame) : DataFrame :=
  if (Nat.eqb (index df) 0 && Nat.ltb 0 (length values))%bool
  then mkDF (length values)
            (map (fun c => (fst c, repeat VNaN (length values))) (columns df))
  else df.

(** The columns after [df[key] = values]: a column labelled [key] takes the
    values where it stands (every such column, when the label repeats), and
    a new label is added last. *)
Definition set_column (key : str) (values : list Cell)
  (cols : list (str * list Cell)) : list (str * list Cell) :=
  if str_in key (map fst cols)
  then map (fun c => if str_eqb (fst c) key then (key, values) else c) cols
  else cols ++ [(key, values)].

(** [df[key] = values] for a one-dimensional sequence: the frame is updated
    in place, so the operation returns the frame that the variable then
    holds.  A length different from the index raises [ValueError] and leaves
    the frame as it was. *)
Definition setitem (key : str) (values : list Cell) (df : DataFrame)
  : result DataFrame :=
  let df1 := ensure_valid_index values df in
  if Nat.eqb (length values) (index df1)
  then Ok (mkDF (index df1) (set_column key values (columns df1)))
  else Err (mkExn ValueError
              (lit "Length of values (" ++ str_of_nat (length values)
               ++ lit ") does not match length of index ("
               ++ str_of_nat (index df1) ++ lit ")")).

End Pandas.

(** ** CSV text: [DataFrame.to_csv] and [pd.read_csv] *)

Module Csv.

Import Py Pandas.

Definition COMMA : N := 44.
Definition QUOTE : N := 34.
Definition LF : N := 10.
Definition CR : N := 13.

(** *** Writing *)

(** How [to_csv] prints a cell: [str(n)] for an integer, the text itself,
    and the empty [na_rep] for a missing value. *)
Definition render (c : Cell) : str :=
  match c with
  | VInt z => str_of_int z
  | VStr s => s
  | VNaN => []
  end.

(** [csv.QUOTE_MINIMAL]: a field is quoted when it holds the delimiter, the
    quote character or a line break, and quote characters are doubled. *)
Definition special (c : N) : bool :=
  (N.eqb c COMMA || N.eqb c QUOTE || N.eqb c LF || N.eqb c CR)%bool.

Definition needs_quote (f : str) : bool := existsb special f.

Definition quote_field (f : str) : str :=
  if needs_quote f
  then QUOTE :: flat_map (fun c => if N.eqb c QUOTE then [QUOTE; QUOTE] else [c]) f
       ++ [QUOTE]
  else f.

Fixpoint join (sep : N) (fields : list str) : str :=
  match fields with
  | [] => []
  | [f] => f
  | f :: rest => f ++ sep :: join sep rest
  end.

(** One record and its line terminator.  A record that is a single empty
    field is written as a pair of quotes, so that the line is not empty. *)
Definition write_row (fields : list str) : str :=
  match fields with
  | [ [] ] => [QUOTE; QUOTE; LF]
  | _ => join COMMA (map quote_field fields) ++ [LF]
  end.

(** The cells of row [i], in column order. *)
Definition row (df : DataFrame) (i : nat) : list Cell :=
  map (fun c => nth i (snd c) VNaN) (columns df).

Definition rows (df : DataFrame) : list (list Cell) :=
  map (row df) (seq 0 (index df)).

(** The records [to_csv] writes: the header, then one record per row; with
    [index=True] each record starts with the row label (the header with an
    empty label). *)
Definition records (with_index : bool) (df : DataFrame) : list (list str) :=
  ((if with_index then [ [] ] else []) ++ column_names df)
  :: map (fun i => (if with_index then [str_of_nat i] else [])
                   ++ map render (row df i))
         (seq 0 (index df)).

(** [df.to_csv(index=with_index)] with no path: the CSV text. *)
Definition to_csv (with_index : bool) (df : DataFrame) : str :=
  flat_map write_row (records with_index df).

(** A table that can be exported: its labels and text cells hold no
    surrogate. *)
Definition cell_encodable (c : Cell) : bool :=
  match c with
  | VStr s => forallb scalar s
  | _ => true
  end.

Definition encodable (d : DataFrame) : bool :=
  forallb (fun c => (forallb scalar (fst c) && forallb cell_encodable (snd c))%bool)
    (columns d).

(** *** Reading *)

(** The tokenizer of the C parser ([tokenize_bytes] in pandas' [tokenizer.c])
    with the default options of [pd.read_csv]: the delimiter is a comma,
    the quote character a double quote that is doubled inside a quoted
    field, a line ends with a line feed, a carriage return or both, and
    lines that are empty or hold only spaces and tabs are skipped
    ([skip_blank_lines=True]).  The states carry pandas' names. *)
Inductive pstate :=
| START_RECORD
| START_FIELD
| IN_FIELD
| IN_QUOTED_FIELD
| QUOTE_IN_QUOTED_FIELD
| EAT_CRNL
| EAT_CRNL_NOP
| WHITESPACE_LINE.

(** The tokenizer: its state, the characters of the open field, the closed
    fields of the open line, and the closed lines. *)
Record Tokenizer := mkTok {
  state : pstate;
  word : str;
  line : list str;
  lines : list (list str)
}.

Definition goto (st : pstate) (t : Tokenizer) : Tokenizer :=
  mkTok st (word t) (line t) (lines t).

Definition push_char (c : N) (t : Tokenizer) : Tokenizer :=
  mkTok (state t) (word t ++ [c]) (line t) (lines t).

Definition end_field (t : Tokenizer) : Tokenizer :=
  mkTok (state t) [] (line t ++ [word t]) (lines t).

Definition end_line (t : Tokenizer) : Tokenizer :=
  mkTok (state t) [] [] (lines t ++ [line t]).

Definition is_whitespace (c : N) : bool := (N.eqb c 32 || N.eqb c 9)%bool.

Definition in_field (t : Tokenizer) (c : N) : Tokenizer :=
  if N.eqb c LF then goto START_RECORD (end_line (end_field t))
  else if N.eqb c CR then goto EAT_CRNL (end_field t)
  else if N.eqb c COMMA then goto START_FIELD (end_field t)
  else push_char c t.

Definition start_field (t : Tokenizer) (c : N) : Tokenizer :=
  if N.eqb c LF then goto START_RECORD (end_line (end_field t))
  else if N.eqb c CR then goto EAT_CRNL (end_field t)
  else if N.eqb c QUOTE then goto IN_QUOTED_FIELD t
  else if N.eqb c COMMA then goto START_FIELD (end_field t)
  else goto IN_FIELD (push_char c t).

(** At the start of a line.  With [skip_empty_lines] an empty line is
    dropped and a line that starts with a space or a tab is first taken for
    a line of blanks; without it an empty line is a record without fields. *)
Definition start_record (skip_empty_lines : bool) (t : Tokenizer) (c : N)
  : Tokenizer :=
  if N.eqb c LF then (if skip_empty_lines then t else end_line t)
  else if N.eqb c CR
  then goto (if skip_empty_lines then EAT_CRNL_NOP else EAT_CRNL) t
  else if (is_whitespace c && skip_empty_lines)%bool
  then goto WHITESPACE_LINE (push_char c t)
  else start_field t c.

(** One character.  In [WHITESPACE_LINE] the blanks read so far are kept
    in [word]: when another character follows, the C code goes back to the
    start of the line and reads it as a field, which leaves it in a field
    that starts with these blanks. *)
Definition step (skip_empty_lines : bool) (t : Tokenizer) (c : N) : Tokenizer :=
  match state t with
  | START_RECORD => start_record skip_empty_lines t c
  | START_FIELD => start_field t c
  | IN_FIELD => in_field t c
  | IN_QUOTED_FIELD =>
      if N.eqb c QUOTE then goto QUOTE_IN_QUOTED_FIELD t else push_char c t
  | QUOTE_IN_QUOTED_FIELD =>
      if N.eqb c QUOTE then goto IN_QUOTED_FIELD (push_char c t)
      else if N.eqb c COMMA then goto START_FIELD (end_field t)
      else if N.eqb c LF then goto START_RECORD (end_line (end_field t))
      else if N.eqb c CR then goto EAT_CRNL (end_field t)
      else goto IN_FIELD (push_char c t)
  | EAT_CRNL =>
      if N.eqb c LF then goto START_RECORD (end_line t)
      else if N.eqb c COMMA then goto START_FIELD (end_field (end_line t))
      else start_record skip_empty_lines (goto START_RECORD (end_line t)) c
  | EAT_CRNL_NOP =>
      if (N.eqb c LF || N.eqb c COMMA)%bool then goto START_RECORD t
      else start_record skip_empty_lines (goto START_RECORD t) c
  | WHITESPACE_LINE =>
      if N.eqb c LF then mkTok START_RECORD [] (line t) (lines t)
      else if N.eqb c CR then mkTok EAT_CRNL_NOP [] (line t) (lines t)
      else if is_whitespace c then push_char c t
      else in_field (goto IN_FIELD t) c
  end.

(** The end of the input ([parser_handle_eof]): an open line is closed, and
    an open quoted field is an error. *)
Definition at_eof (t : Tokenizer) : option (list (list str)) :=
  match state t with
  | START_RECORD | WHITESPACE_LINE | EAT_CRNL_NOP => Some (lines t)
  | IN_QUOTED_FIELD => None
  | START_FIELD | IN_FIELD | QUOTE_IN_QUOTED_FIELD =>
      Some (lines (end_line (end_field t)))
  | EAT_CRNL => Some (lines (end_line t))
  end.

Definition tokenize (skip_empty_lines : bool) (text : str)
  : option (list (list str)) :=
  at_eof (fold_left (step skip_empty_lines) text (mkTok START_RECORD [] [] [])).

(** A line of spaces and tabs. *)
Definition is_blank (l : str) : bool := forallb is_whitespace l.

(** The default markers of a missing value: the empty field and the words
    of [pandas]' list. *)
Definition na_values : list str :=
  [] :: map lit ["#N/A"; "#N/A N/A"; "#NA"; "-1.#IND"; "-1.#QNAN"; "-NaN";
                 "-nan"; "1.#IND"; "1.#QNAN"; "<NA>"; "N/A"; "NA"; "NULL";
                 "NaN"; "None"; "n/a"; "nan"; "null"]%string.

Definition is_na (f : str) : bool := str_in f na_values.

Definition INT64_MIN : Z := -9223372036854775808.
Definition INT64_MAX : Z := 9223372036854775807.

(** C's [isspace]. *)
Definition is_space (c : N) : bool :=
  existsb (N.eqb c) [32; 9; 10; 11; 12; 13]%N.

Fixpoint lstrip (f : str) : str :=
  match f with
  | c :: f' => if is_space c then lstrip f' else f
  | [] => []
  end.

Definition rstrip (f : str) : str := List.rev (lstrip (List.rev f)).

(** A field that is an integer ([str_to_int64]): spaces, an optional sign,
    decimal digits, spaces. *)
Definition int_literal (f : str) : option Z :=
  let g := rstrip (lstrip f) in
  let digits := match g with
                | 43%N :: 45%N :: _ => []
                | 43%N :: r => r
                | _ => g
                end in
  match ascii_string digits with
  | Some s => option_map Z.of_int (NilZero.int_of_string s)
  | None => None
  end.

(** A cell that holds an integer of 64 bits. *)
Definition is_int64 (c : Cell) : bool :=
  match c with
  | VInt z => (Z.leb INT64_MIN z && Z.leb z INT64_MAX)%bool
  | _ => false
  end.

Fixpoint int_literals (fields : list str) : option (list Z) :=
  match fields with
  | [] => Some []
  | f :: rest =>
      match int_literal f, int_literals rest with
      | Some z, Some zs => Some (z :: zs)
      | _, _ => None
      end
  end.

(** The cells of a column from its fields: integers when every field is
    one, and otherwise the fields as text, with the markers of a missing
    value read as [NaN].  (Floating point numbers and booleans are not
    modelled: a column that pandas reads as such is held as the text of its
    fields.) *)
Definition infer_column (fields : list str) : list Cell :=
  match int_literals fields with
  | Some zs => map VInt zs
  | None => map (fun f => if is_na f then VNaN else VStr f) fields
  end.

(** Field [j] of a record; a record shorter than the others is completed
    with missing values. *)
Definition field (j : nat) (record : list str) : str := nth j record [].

Definition BOM : N := 65279.

(** A byte order mark at the start of the file is skipped. *)
Definition skip_bom (text : str) : str :=
  match text with
  | c :: rest => if N.eqb c BOM then rest else text
  | [] => []
  end.

(** The frame of a header and the records after it.  The first record may
    have more fields than the header: the leading ones are then the row
    labels, which the frame here does not keep.  A later record with more
    fields than that raises [ParserError], one with fewer is completed.
    Labels are taken as written (pandas renames repeated and empty ones). *)
Definition frame (names : list str) (recs : list (list str)) : result DataFrame :=
  let width := Nat.max (length names) (length (hd [] recs)) in
  if existsb (fun r => Nat.ltb width (length r)) recs
  then Err (mkExn ParserError (lit "Error tokenizing data. C error: Expected "
                                ++ str_of_nat width ++ lit " fields"))
  else Ok (mkDF (length recs)
             (map (fun j => (field j names,
                             infer_column
                               (map (field (width - length names + j)) recs)))
                  (seq 0 (length names)))).

(** [pd.read_csv(f)] on the uploaded bytes.  The first line is the header.
    The messages of [ParserError] and of [UnicodeDecodeError] name the
    offending position in pandas; here they are cut before it. *)
Definition read_csv (b : bytes) : result DataFrame :=
  match decode_utf8 b with
  | None => Err (mkExn UnicodeDecodeError (lit "'utf-8' codec can't decode byte"))
  | Some text =>
      match tokenize true (skip_bom text) with
      | None => Err (mkExn ParserError
                       (lit "Error tokenizing data. C error: EOF inside string"))
      | Some [] => Err (mkExn EmptyDataError (lit "No columns to parse from file"))
      | Some (names :: recs) => frame names recs
      end
  end.

(** The characters a tokenizer holds. *)
Definition held (t : Tokenizer) : str :=
  word t ++ concat (line t) ++ concat (concat (lines t)).


(** A character of a printed integer: a minus sign or a digit. *)
Definition int_char (c : N) : bool :=
  (N.eqb c 45 || (N.leb 48 c && N.leb c 57))%bool.


End Csv.

(** ** The script *)

Module App.

Import Py Pandas Csv.

(** The model object that [joblib.load] returns: the script only calls its
    [predict] method, which answers with a sequence of values or raises. *)
Record Predictor := mkPredictor {
  predict : DataFrame -> result (list Cell)
}.

(** What a run of the script depends on: the file in the upload widget,
    whether the button "Predict AQI" was pressed, what [joblib.load] finds
    at a path, and what Streamlit does with a table it is asked to show:
    [st.write] converts the frame to an Arrow table and raises when it
    cannot (for example on a column of Python integers beyond 64 bits). *)
Record World := mkWorld {
  uploaded : option bytes;
  pressed : bool;
  artifact : str -> result Predictor;
  display : DataFrame -> result unit
}.

(** The calls a run makes, in order. *)
Inductive Event :=
| St_set_page_config (page_title layout : str)
| St_title (body : str)
| St_markdown (body : str)
| St_file_uploader (label : str) (type : list str)
| St_subheader (body : str)
| St_write (df : DataFrame)
| St_error (body : str)
| St_button (label : str)
| St_download_button (label : str) (data : bytes) (file_name mime : str)
| Joblib_load (path : str)
| Model_predict (features : DataFrame).

(** The store of a run: the variable [data] (unbound before the upload is
    read), which is the one object the script mutates, and the trace. *)
Record Store := mkStore {
  data : option DataFrame;
  trace : list Event
}.

Definition initial : Store := mkStore None [].

(** How a block of the script ends: normally, by a raised [Exception], or
    by [st.stop()], which no [except Exception] clause catches. *)
Inductive Outcome (A : Type) :=
| Done (a : A)
| Raised (e : exn)
| Stopped.

Arguments Done {A} a.
Arguments Raised {A} e.
Arguments Stopped {A}.

Definition Script (A : Type) : Type := Store -> Outcome A * Store.

Definition ret {A} (a : A) : Script A := fun s => (Done a, s).

Definition bind {A B} (c : Script A) (k : A -> Script B) : Script B :=
  fun s =>
    match c s with
    | (Done a, s') => k a s'
    | (Raised e, s') => (Raised e, s')
    | (Stopped, s') => (Stopped, s')
    end.

Declare Scope script_scope.
Delimit Scope script_scope with script.
Notation "x <- c ;; k" := (bind c (fun x => k))
  (at level 61, c at next level, right associativity) : script_scope.
Notation "c ;; k" := (bind c (fun _ => k))
  (at level 61, right associativity) : script_scope.
Local Open Scope script_scope.

Definition raise {A} (e : exn) : Script A := fun s => (Raised e, s).

Definition lift {A} (r : result A) : Script A :=
  match r with
  | Ok a => ret a
  | Err e => raise e
  end.

(** [try: body / except <handles> as e: handler e]. *)
Definition try_except {A} (body : Script A) (handles : exn -> bool)
  (handler : exn -> Script A) : Script A :=
  fun s =>
    match body s with
    | (Raised e, s') => if handles e then handler e s' else (Raised e, s')
    | r => r
    end.

Definition emit (ev : Event) : Script unit :=
  fun s => (Done tt, mkStore (data s) (trace s ++ [ev])).

Definition st_set_page_config (page_title layout : str) : Script unit :=
  emit (St_set_page_config page_title layout).
Definition st_title (body : str) : Script unit := emit (St_title body).
Definition st_markdown (body : str) : Script unit := emit (St_markdown body).
Definition st_subheader (body : str) : Script unit := emit (St_subheader body).
Definition st_error (body : str) : Script unit := emit (St_error body).
Definition st_stop {A} : Script A := fun s => (Stopped, s).

Definition st_file_uploader (w : World) (label : str) (type : list str)
  : Script (option bytes) :=
  emit (St_file_uploader label type) ;; ret (uploaded w).

(** [st.write(df)]: the call is made, and raises when Streamlit cannot
    show the frame. *)
Definition st_write (w : World) (df : DataFrame) : Script unit :=
  emit (St_write df) ;; lift (display w df).

Definition st_button (w : World) (label : str) : Script bool :=
  emit (St_button label) ;; ret (pressed w).

Definition st_download_button (label : str) (payload : bytes)
  (file_name mime : str) : Script unit :=
  emit (St_download_button label payload file_name mime).

Definition joblib_load (w : World) (path : str) : Script Predictor :=
  emit (Joblib_load path) ;; lift (artifact w path).

Definition model_predict (model : Predictor) (features : DataFrame)
  : Script (list Cell) :=
  emit (Model_predict features) ;; lift (predict model features).

(** Reading and binding the variable [data]. *)
Definition get_data : Script DataFrame :=
  fun s =>
    match data s with
    | Some d => (Done d, s)
    | None => (Raised (mkExn NameError (lit "name 'data' is not defined")), s)
    end.

Definition set_data (d : DataFrame) : Script unit :=
  fun s => (Done tt, mkStore (Some d) (trace s)).

(** [data[key] = values]: the frame held by [data] is updated in place. *)
Definition data_setitem (key : str) (values : list Cell) : Script unit :=
  d <- get_data ;;
  d' <- lift (setitem key values d) ;;
  set_data d'.

(** [text.encode('utf-8')]. *)
Definition encode (text : str) : result bytes :=
  match encode_utf8 text with
  | Some b => Ok b
  | None => Err (mkExn UnicodeEncodeError
                   (lit "'utf-8' codec can't encode character"))
  end.

(** [data.to_csv(index=False).encode('utf-8')]. *)
Definition export_csv (d : DataFrame) : result bytes :=
  encode (to_csv false d).

Definition MODEL_PATH : str := lit "air_quality_model.pkl".

(** Lines 27-37: the body of [if st.button("Predict AQI"):]. *)
Definition prediction (w : World) (model : Predictor) : Script unit :=
  try_except
    (d <- get_data ;;
     features <- lift (drop [lit "AQI"] true d) ;;
     predictions <- model_predict model features ;;
     data_setitem (lit "Predicted_AQI") predictions ;;
     st_subheader (lit "Prediction Results") ;;
     d' <- get_data ;;
     st_write w d' ;;
     d'' <- get_data ;;
     csv <- lift (export_csv d'') ;;
     st_download_button (lit "Download Results as CSV") csv
       (lit "predicted_aqi.csv") (lit "text/csv"))
    (fun _ => true)
    (fun e => st_error (lit "Prediction failed: " ++ exn_str e)).

(** Lines 19-23: loading the model. *)
Definition load_model (w : World) : Script Predictor :=
  try_except
    (joblib_load w MODEL_PATH)
    is_FileNotFoundError
    (fun _ =>
       st_error (lit "Model file not found! Please add 'air_quality_model.pkl'.") ;;
       st_stop).

(** The whole script. *)
Definition main (w : World) : Script unit :=
  st_set_page_config (lit "Air Quality Predictor") (lit "centered") ;;
  st_title (lit "Air Quality Index (AQI) Prediction") ;;
  st_markdown (lit "Upload the data and get AQI predictions instantly.") ;;
  uploaded_file <- st_file_uploader w (lit "Upload your CSV file") [lit "csv"] ;;
  match uploaded_file with
  | Some f =>
      d <- lift (read_csv f) ;;
      set_data d ;;
      st_subheader (lit "Input Data Preview") ;;
      d0 <- get_data ;;
      st_write w (head 5 d0) ;;
      model <- load_model w ;;
      clicked <- st_button w (lit "Predict AQI") ;;
      if clicked then prediction w model else ret tt
  | None => ret tt
  end.

Definition run (w : World) : Outcome unit * Store := main w initial.

(** *** Reading a trace *)

(** The frames [model.predict] was called with. *)
Definition predict_calls (evs : list Event) : list DataFrame :=
  flat_map (fun ev => match ev with Model_predict f => [f] | _ => [] end) evs.

(** The messages shown with [st.error]. *)
Definition error_messages (evs : list Event) : list str :=
  flat_map (fun ev => match ev with St_error m => [m] | _ => [] end) evs.

(** The payloads offered for download. *)
Definition downloads (evs : list Event) : list bytes :=
  flat_map (fun ev => match ev with
                      | St_download_button _ payload _ _ => [payload]
                      | _ => []
                      end) evs.

(** The events of a run up to and including the preview, for an upload that
    was read as [d]. *)
Definition preview (d : DataFrame) : list Event :=
  [St_set_page_config (lit "Air Quality Predictor") (lit "centered");
   St_title (lit "Air Quality Index (AQI) Prediction");
   St_markdown (lit "Upload the data and get AQI predictions instantly.");
   St_file_uploader (lit "Upload your CSV file") [lit "csv"];
   St_subheader (lit "Input Data Preview");
   St_write (head 5 d)].

(** The events of a run up to and including the call of [joblib.load], for
    an upload that was read as [d]. *)
Definition preamble (d : DataFrame) : list Event :=
  [St_set_page_config (lit "Air Quality Predictor") (lit "centered");
   St_title (lit "Air Quality Index (AQI) Prediction");
   St_markdown (lit "Upload the data and get AQI predictions instantly.");
   St_file_uploader (lit "Upload your CSV file") [lit "csv"];
   St_subheader (lit "Input Data Preview");
   St_write (head 5 d);
   Joblib_load MODEL_PATH].

(** The events of every run: lines 7-12. *)
Definition page_head : list Event :=
  [St_set_page_config (lit "Air Quality Predictor") (lit "centered");
   St_title (lit "Air Quality Index (AQI) Prediction");
   St_markdown (lit "Upload the data and get AQI predictions instantly.");
   St_file_uploader (lit "Upload your CSV file") [lit "csv"]].

(** The frames shown with [st.write]. *)
Definition written (evs : list Event) : list DataFrame :=
  flat_map (fun ev => match ev with St_write f => [f] | _ => [] end) evs.

(** The events a block added to a trace that had [n] events. *)
Definition events_since (n : nat) (s : Store) : list Event :=
  skipn n (trace s).

Definition PREDICTED : str := lit "Predicted_AQI".

(** The event of [st.error(f"Prediction failed: {e}")]. *)
Definition failure_message (e : exn) : Event :=
  St_error (lit "Prediction failed: " ++ exn_str e).

(** The event of the download button of line 35. *)
Definition download_event (csv : bytes) : Event :=
  St_download_button (lit "Download Results as CSV") csv
    (lit "predicted_aqi.csv") (lit "text/csv").

(** The columns of a frame other than [Predicted_AQI]. *)
Definition other_columns (d : DataFrame) : list (str * list Cell) :=
  filter (fun c => negb (str_eqb (fst c) PREDICTED)) (columns d).

End App.

(** ** Concrete inputs used by the examples *)

Module Scenario.

Import Py Pandas Csv App.

Definition add_cells (ab : Cell * Cell) : Cell :=
  match ab with
  | (VInt a, VInt b) => VInt (a + b)
  | _ => VNaN
  end.

(** A predictor that answers [PM2.5 + PM10] for every row. *)
Definition pm_sum : Predictor :=
  mkPredictor (fun f =>
    match column (lit "PM2.5") f, column (lit "PM10") f with
    | Some a, Some b => Ok (map add_cells (combine a b))
    | _, _ => Err (mkExn KeyError (lit "'PM2.5'"))
    end).

(** A predictor that answers the same values for every table. *)
Definition constant (values : list Cell) : Predictor :=
  mkPredictor (fun _ => Ok values).

(** A predictor whose [predict] raises. *)
Definition failing (e : exn) : Predictor :=
  mkPredictor (fun _ => Err e).

(** A predictor that answers the number of feature columns for every row. *)
Definition width : Predictor :=
  mkPredictor (fun f =>
    Ok (repeat (VInt (Z.of_nat (length (columns f)))) (index f))).

Definition line (s : string) : bytes := lit s ++ [LF].

Definition aqi_csv : bytes :=
  line "AQI,PM2.5,PM10" ++ line "100,30,40" ++ line "200,50,60".

Definition aqi_table : DataFrame :=
  mkDF 2 [(lit "AQI", [VInt 100; VInt 200]);
          (lit "PM2.5", [VInt 30; VInt 50]);
          (lit "PM10", [VInt 40; VInt 60])].

Definition aqi_result : DataFrame :=
  mkDF 2 [(lit "AQI", [VInt 100; VInt 200]);
          (lit "PM2.5", [VInt 30; VInt 50]);
          (lit "PM10", [VInt 40; VInt 60]);
          (lit "Predicted_AQI", [VInt 70; VInt 110])].

(** The table without its column [AQI]. *)
Definition aqi_features : DataFrame :=
  mkDF 2 [(lit "PM2.5", [VInt 30; VInt 50]);
          (lit "PM10", [VInt 40; VInt 60])].


Definition no_aqi_csv : bytes :=
  line "PM2.5,PM10" ++ line "30,40" ++ line "50,60".

Definition schema_mismatch : exn :=
  mkExn ValueError (lit "X has 3 features, but the model is expecting 2").

Definition unpickling_error : exn :=
  mkExn (OtherException "UnpicklingError") (lit "invalid load key").

Definition no_such_file : exn :=
  mkExn FileNotFoundError
    (lit "[Errno 2] No such file or directory: 'air_quality_model.pkl'").

(** The first bytes of a PNG image. *)
Definition png_bytes : bytes := [137; 80; 78; 71; 13; 10; 26; 10]%N.

(** A header and no record. *)
Definition header_only : DataFrame :=
  mkDF 0 [(lit "PM2.5", []); (lit "PM10", [])].

(** A table that has a column [Predicted_AQI] before any prediction. *)
Definition with_predicted_csv : bytes :=
  line "PM2.5,Predicted_AQI" ++ line "30,5" ++ line "50,6".

Definition with_predicted : DataFrame :=
  mkDF 2 [(lit "PM2.5", [VInt 30; VInt 50]);
          (lit "Predicted_AQI", [VInt 5; VInt 6])].



Definition header_only_csv : bytes := line "PM2.5,PM10".

Definition three : list Cell := [VInt 1; VInt 2; VInt 3].

Definition with_predicted_result : DataFrame :=
  mkDF 2 [(lit "PM2.5", [VInt 30; VInt 50]);
          (lit "Predicted_AQI", [VInt 7; VInt 8])].

(** A failure of [st.write]. *)
Definition conversion_error : exn :=
  mkExn (OtherException "StreamlitAPIException")
    (lit "Unable to convert dataframe to Arrow table").

(** A world in which Streamlit shows every table. *)
Definition world (upload : option bytes) (press : bool)
  (model : result Predictor) : World :=
  mkWorld upload press (fun _ => model) (fun _ => Ok tt).

(** A Streamlit that shows a table only when its integers have 64 bits. *)
Definition int64_display (df : DataFrame) : result unit :=
  if forallb (fun c => forallb (fun v => (negb (is_int v) || is_int64 v)%bool)
                         (snd c)) (columns df)
  then Ok tt else Err conversion_error.

(** A world for running the prediction block alone: only [st.write]
    matters there. *)
Definition showing : World := world None true (Err no_such_file).

(** An upload with an integer beyond 64 bits. *)
Definition big_csv : bytes :=
  line "a" ++ line "99999999999999999999999" ++ line "1".

Definition big_table : DataFrame :=
  mkDF 2 [(lit "a", [VInt 99999999999999999999999; VInt 1])].

(** Predictions with an integer beyond 64 bits. *)
Definition big_values : list Cell := [VInt (10 ^ 30); VInt 1].

Definition strict_world (upload : option bytes) (press : bool)
  (model : result Predictor) : World :=
  mkWorld upload press (fun _ => model) int64_display.

End Scenario.

(** * Properties *)

Import Py Pandas Csv App.
Local Open Scope script_scope.

(** ** Text *)

Lemma str_eqb_eq (a b : str) : str_eqb a b = true <-> a = b.
Proof.
  revert b; induction a as [|x a IH]; destruct b as [|y b]; simpl;
    try (split; congruence).
  rewrite andb_true_iff, N.eqb_eq, IH. split.
  - intros [-> ->]; reflexivity.
  - intros [= -> ->]; auto.
Qed.

Lemma str_eqb_refl (a : str) : str_eqb a a = true.
Proof. apply str_eqb_eq; reflexivity. Qed.

Lemma str_eqb_neq (a b : str) : str_eqb a b = false <-> a <> b.
Proof.
  rewrite <- str_eqb_eq. destruct (str_eqb a b); split; congruence.
Qed.

Lemma str_in_In (a : str) (l : list str) : str_in a l = true <-> In a l.
Proof.
  unfold str_in. rewrite existsb_exists. split.
  - intros (x & Hx & E). apply str_eqb_eq in E. subst; assumption.
  - intros H. exists a. split; [assumption | apply str_eqb_refl].
Qed.

(** ** The prediction block, case by case *)

#[local] Arguments drop : simpl never.
#[local] Arguments setitem : simpl never.
#[local] Arguments export_csv : simpl never.
#[local] Arguments read_csv : simpl never.
#[local] Arguments lit : simpl never.
#[local] Arguments head : simpl never.

Ltac step_script :=
  unfold prediction, load_model, try_except, bind, model_predict, joblib_load,
    data_setitem, st_set_page_config, st_title, st_markdown, st_subheader,
    st_write, st_error, st_stop, st_file_uploader, st_button,
    st_download_button, emit, lift, get_data, set_data, ret, raise;
  cbn.

Section PredictionRun.

Variable w : World.
Variable model : Predictor.
Variables d features : DataFrame.
Variable tr : list Event.
Hypothesis Hdrop : drop [lit "AQI"] true d = Ok features.

Lemma prediction_predict_raises (e : exn) :
  predict model features = Err e ->
  prediction w model (mkStore (Some d) tr)
  = (Done tt, mkStore (Some d)
                (tr ++ [Model_predict features; failure_message e])).
Proof.
  intros H. step_script. rewrite Hdrop. step_script. rewrite H. simpl.
  rewrite <- app_assoc. reflexivity.
Qed.

Lemma prediction_setitem_raises (values : list Cell) (e : exn) :
  predict model features = Ok values ->
  setitem PREDICTED values d = Err e ->
  prediction w model (mkStore (Some d) tr)
  = (Done tt, mkStore (Some d)
                (tr ++ [Model_predict features; failure_message e])).
Proof.
  intros H1 H2. step_script. rewrite Hdrop. step_script. rewrite H1. simpl.
  fold PREDICTED. rewrite H2. simpl.
  rewrite <- app_assoc. reflexivity.
Qed.

(** [st.write(data)] raises after the column was assigned: the table in
    [data] has the predictions although a failure is reported. *)
Lemma prediction_display_raises (values : list Cell) (d' : DataFrame) (e : exn) :
  predict model features = Ok values ->
  setitem PREDICTED values d = Ok d' ->
  display w d' = Err e ->
  prediction w model (mkStore (Some d) tr)
  = (Done tt, mkStore (Some d')
                (tr ++ [Model_predict features;
                        St_subheader (lit "Prediction Results");
                        St_write d'; failure_message e])).
Proof.
  intros H1 H2 H3. step_script. rewrite Hdrop. step_script. rewrite H1. simpl.
  fold PREDICTED. rewrite H2. simpl. rewrite H3. simpl.
  repeat rewrite <- app_assoc. reflexivity.
Qed.

Lemma prediction_export_raises (values : list Cell) (d' : DataFrame) (e : exn) :
  predict model features = Ok values ->
  setitem PREDICTED values d = Ok d' ->
  display w d' = Ok tt ->
  export_csv d' = Err e ->
  prediction w model (mkStore (Some d) tr)
  = (Done tt, mkStore (Some d')
                (tr ++ [Model_predict features;
                        St_subheader (lit "Prediction Results");
                        St_write d'; failure_message e])).
Proof.
  intros H1 H2 Hs H3. step_script. rewrite Hdrop. step_script. rewrite H1. simpl.
  fold PREDICTED. rewrite H2. simpl. rewrite Hs. simpl. rewrite H3. simpl.
  repeat rewrite <- app_assoc. reflexivity.
Qed.

Lemma prediction_succeeds (values : list Cell) (d' : DataFrame) (csv : bytes) :
  predict model features = Ok values ->
  setitem PREDICTED values d = Ok d' ->
  display w d' = Ok tt ->
  export_csv d' = Ok csv ->
  prediction w model (mkStore (Some d) tr)
  = (Done tt, mkStore (Some d')
                (tr ++ [Model_predict features;
                        St_subheader (lit "Prediction Results");
                        St_write d'; download_event csv])).
Proof.
  intros H1 H2 Hs H3. step_script. rewrite Hdrop. step_script. rewrite H1. simpl.
  fold PREDICTED. rewrite H2. simpl. rewrite Hs. simpl. rewrite H3. simpl.
  repeat rewrite <- app_assoc. reflexivity.
Qed.

End PredictionRun.

Lemma events_since_app (d : option DataFrame) (tr evs : list Event) :
  events_since (length tr) (mkStore d (tr ++ evs)) = evs.
Proof.
  unfold events_since. simpl. induction tr as [|x tr IH]; simpl; auto.
Qed.

Lemma drop_AQI (d : DataFrame) :
  drop [lit "AQI"] true d
  = Ok (mkDF (index d)
          (filter (fun c => negb (str_eqb (fst c) (lit "AQI"))) (columns d))).
Proof.
  unfold drop. simpl. do 2 f_equal. apply filter_ext. intros c.
  unfold str_in. simpl. rewrite orb_false_r. reflexivity.
Qed.

(** Every way the prediction block can end.  It always ends normally: what
    the model, the assignment, [st.write] or the export raise is reported
    with [st.error]. *)
Lemma prediction_cases (w : World) (model : Predictor) (d : DataFrame)
  (tr : list Event) :
  exists features,
    drop [lit "AQI"] true d = Ok features
    /\ ((exists e,
           predict model features = Err e
           /\ prediction w model (mkStore (Some d) tr)
              = (Done tt, mkStore (Some d)
                            (tr ++ [Model_predict features; failure_message e])))
        \/ (exists values e,
              predict model features = Ok values
              /\ setitem PREDICTED values d = Err e
              /\ prediction w model (mkStore (Some d) tr)
                 = (Done tt, mkStore (Some d)
                               (tr ++ [Model_predict features;
                                       failure_message e])))
        \/ (exists values d' e,
              predict model features = Ok values
              /\ setitem PREDICTED values d = Ok d'
              /\ (display w d' = Err e
                  \/ (display w d' = Ok tt /\ export_csv d' = Err e))
              /\ prediction w model (mkStore (Some d) tr)
                 = (Done tt, mkStore (Some d')
                               (tr ++ [Model_predict features;
                                       St_subheader (lit "Prediction Results");
                                       St_write d'; failure_message e])))
        \/ (exists values d' csv,
              predict model features = Ok values
              /\ setitem PREDICTED values d = Ok d'
              /\ display w d' = Ok tt
              /\ export_csv d' = Ok csv
              /\ prediction w model (mkStore (Some d) tr)
                 = (Done tt, mkStore (Some d')
                               (tr ++ [Model_predict features;
                                       St_subheader (lit "Prediction Results");
                                       St_write d'; download_event csv])))).
Proof.
  destruct (drop [lit "AQI"] true d) as [features|e0] eqn:Hdrop;
    [|rewrite drop_AQI in Hdrop; discriminate Hdrop].
  exists features. split; [reflexivity|].
  destruct (predict model features) as [values|e] eqn:Hp.
  - destruct (setitem PREDICTED values d) as [d'|e] eqn:Hs.
    + destruct (display w d') as [[]|e] eqn:Hw.
      * destruct (export_csv d') as [csv|e] eqn:He.
        -- right. right. right. exists values, d', csv. repeat split; auto.
           apply (@prediction_succeeds w model d features tr Hdrop values d' csv
                    Hp Hs Hw He).
        -- right. right. left. exists values, d', e. repeat split; auto.
           apply (@prediction_export_raises w model d features tr Hdrop values
                    d' e Hp Hs Hw He).
      * right. right. left. exists values, d', e. repeat split; auto.
        apply (@prediction_display_raises w model d features tr Hdrop values
                 d' e Hp Hs Hw).
    + right. left. exists values, e. repeat split; auto.
      apply (@prediction_setitem_raises w model d features tr Hdrop values e
               Hp Hs).
  - left. exists e. split; auto.
    apply (@prediction_predict_raises w model d features tr Hdrop e Hp).
Qed.

(** A run of the block that shows no failure message went through the call
    of the model, the assignment, the display and the export. *)
Lemma prediction_success_inv (w : World) (model : Predictor) (d : DataFrame)
  (tr : list Event) (out : Outcome unit) (st : Store) :
  prediction w model (mkStore (Some d) tr) = (out, st) ->
  error_messages (events_since (length tr) st) = [] ->
  exists features values d' csv,
    drop [lit "AQI"] true d = Ok features
    /\ predict model features = Ok values
    /\ setitem PREDICTED values d = Ok d'
    /\ display w d' = Ok tt
    /\ export_csv d' = Ok csv
    /\ out = Done tt
    /\ st = mkStore (Some d')
              (tr ++ [Model_predict features;
                      St_subheader (lit "Prediction Results");
                      St_write d'; download_event csv]).
Proof.
  intros Hrun Hok.
  destruct (prediction_cases w model d tr)
    as (features & Hd & [(e & _ & E)
                        |[(values & e & _ & _ & E)
                         |[(values & d' & e & _ & _ & _ & E)
                          |(values & d' & csv & Hp & Hs & Hw & He & E)]]]);
    rewrite E in Hrun; injection Hrun as <- <-;
    try (rewrite events_since_app in Hok; discriminate Hok).
  exists features, values, d', csv. auto 10.
Qed.

(** ** Assignment of a column *)

Lemma ensure_valid_index_names (values : list Cell) (d : DataFrame) :
  column_names (ensure_valid_index values d) = column_names d.
Proof.
  unfold ensure_valid_index, column_names.
  destruct (Nat.eqb (index d) 0 && Nat.ltb 0 (length values))%bool; simpl; auto.
  rewrite map_map. reflexivity.
Qed.

Lemma ensure_valid_index_id (values : list Cell) (d : DataFrame) :
  0 < index d \/ values = [] -> ensure_valid_index values d = d.
Proof.
  unfold ensure_valid_index. intros [H| ->].
  - destruct (Nat.eqb_spec (index d) 0); [lia | reflexivity].
  - simpl. rewrite andb_false_r. reflexivity.
Qed.

Lemma set_column_names (key : str) (values : list Cell)
  (cols : list (str * list Cell)) (n : str) :
  In n (map fst (set_column key values cols)) <-> In n (map fst cols) \/ n = key.
Proof.
  unfold set_column. destruct (str_in key (map fst cols)) eqn:E.
  - apply str_in_In in E.
    assert (map fst (map (fun c : str * list Cell =>
                            if str_eqb (fst c) key then (key, values) else c) cols)
            = map fst cols) as ->.
    { rewrite map_map. apply map_ext. intros [a b]. simpl.
      destruct (str_eqb a key) eqn:K; simpl; auto.
      apply str_eqb_eq in K. auto. }
    split; [auto | intros [H| ->]; auto].
  - rewrite map_app, in_app_iff. simpl. intuition.
Qed.

Lemma set_column_same_names (key : str) (values : list Cell)
  (cols : list (str * list Cell)) :
  str_in key (map fst cols) = true ->
  map fst (set_column key values cols) = map fst cols.
Proof.
  intros E. unfold set_column. rewrite E. rewrite map_map. apply map_ext.
  intros [a b]. simpl. destruct (str_eqb a key) eqn:K; simpl; auto.
  apply str_eqb_eq in K. auto.
Qed.

Lemma set_column_others (key : str) (values : list Cell)
  (cols : list (str * list Cell)) :
  filter (fun c => negb (str_eqb (fst c) key)) (set_column key values cols)
  = filter (fun c => negb (str_eqb (fst c) key)) cols.
Proof.
  unfold set_column. destruct (str_in key (map fst cols)).
  - induction cols as [|[a b] cols IH]; simpl; auto.
    destruct (str_eqb a key) eqn:K; simpl.
    + rewrite str_eqb_refl. simpl. exact IH.
    + rewrite K. simpl. rewrite IH. reflexivity.
  - rewrite filter_app. simpl. rewrite str_eqb_refl. simpl.
    apply app_nil_r.
Qed.

Lemma set_column_find (key : str) (values : list Cell)
  (cols : list (str * list Cell)) :
  find (fun c => str_eqb (fst c) key) (set_column key values cols)
  = Some (key, values).
Proof.
  unfold set_column. destruct (str_in key (map fst cols)) eqn:E.
  - induction cols as [|[a b] cols IH]; simpl in *; [discriminate|].
    destruct (str_eqb a key) eqn:K; simpl.
    + rewrite str_eqb_refl. reflexivity.
    + rewrite K. apply IH. unfold str_in in E. simpl in E.
      destruct (str_eqb key a) eqn:K'; simpl in E; auto.
      apply str_eqb_eq in K'. subst. rewrite str_eqb_refl in K. discriminate.
  - induction cols as [|[a b] cols IH]; simpl in *.
    + rewrite str_eqb_refl. reflexivity.
    + unfold str_in in E. simpl in E. apply orb_false_iff in E as [E1 E2].
      destruct (str_eqb a key) eqn:K.
      * apply str_eqb_eq in K. subst. rewrite str_eqb_refl in E1. discriminate.
      * apply IH. exact E2.
Qed.

Lemma set_column_find_other (key n : str) (values : list Cell)
  (cols : list (str * list Cell)) :
  n <> key ->
  find (fun c => str_eqb (fst c) n) (set_column key values cols)
  = find (fun c => str_eqb (fst c) n) cols.
Proof.
  intros Hn. unfold set_column. destruct (str_in key (map fst cols)).
  - induction cols as [|[a b] cols IH]; simpl; auto.
    destruct (str_eqb a key) eqn:K; simpl.
    + apply str_eqb_eq in K. subst a.
      assert (str_eqb key n = false) as -> by (apply str_eqb_neq; congruence).
      exact IH.
    + destruct (str_eqb a n); auto.
  - induction cols as [|[a b] cols IH]; simpl.
    + assert (str_eqb key n = false) as -> by (apply str_eqb_neq; congruence).
      reflexivity.
    + destruct (str_eqb a n); auto.
Qed.

(** What a successful assignment leaves in [data]. *)
Lemma setitem_Ok (key : str) (values : list Cell) (d d' : DataFrame) :
  setitem key values d = Ok d' ->
  d' = mkDF (length values)
         (set_column key values (columns (ensure_valid_index values d)))
  /\ index (ensure_valid_index values d) = length values.
Proof.
  unfold setitem.
  destruct (Nat.eqb_spec (length values) (index (ensure_valid_index values d)))
    as [E|E]; [|discriminate].
  intros [= <-]. rewrite <- E. auto.
Qed.

(** ** The script up to the button *)

Ltac start_run Hu :=
  unfold run, main, initial;
  unfold bind at 1 2 3 4; unfold st_file_uploader, bind at 1 2 3 4 5; cbn;
  rewrite Hu.

Lemma run_no_upload (w : World) :
  uploaded w = None ->
  run w = (Done tt, mkStore None page_head).
Proof. intros Hu. start_run Hu. reflexivity. Qed.

Lemma run_read_raises (w : World) (b : bytes) (e : exn) :
  uploaded w = Some b ->
  read_csv b = Err e ->
  run w = (Raised e, mkStore None page_head).
Proof.
  intros Hu Hr. start_run Hu. unfold bind at 1. rewrite Hr. reflexivity.
Qed.

(** [st.write(data.head())] is outside every [try]: what it raises ends the
    run before the model file is looked for. *)
Lemma run_preview_raises (w : World) (b : bytes) (d : DataFrame) (e : exn) :
  uploaded w = Some b ->
  read_csv b = Ok d ->
  display w (head 5 d) = Err e ->
  run w = (Raised e, mkStore (Some d) (preview d)).
Proof.
  intros Hu Hr Hs. start_run Hu. unfold bind at 1. rewrite Hr. cbn.
  unfold st_write, bind, emit, lift. cbn. rewrite Hs. reflexivity.
Qed.

Section Run.

Variable w : World.
Variable b : bytes.
Variable d : DataFrame.
Hypothesis Hupload : uploaded w = Some b.
Hypothesis Hread : read_csv b = Ok d.
Hypothesis Hshown : display w (head 5 d) = Ok tt.

Lemma run_model_loaded (model : Predictor) :
  artifact w MODEL_PATH = Ok model ->
  run w = if pressed w
          then prediction w model
                 (mkStore (Some d) (preamble d ++ [St_button (lit "Predict AQI")]))
          else (Done tt,
                mkStore (Some d) (preamble d ++ [St_button (lit "Predict AQI")])).
Proof.
  intros Hm. start_run Hupload. unfold bind at 1. rewrite Hread. cbn.
  unfold st_write, bind, emit, lift. cbn. rewrite Hshown. cbn.
  unfold load_model, try_except, joblib_load, bind. cbn.
  rewrite Hm. cbn. destruct (pressed w); reflexivity.
Qed.

Lemma run_model_not_found (e : exn) :
  artifact w MODEL_PATH = Err e ->
  is_FileNotFoundError e = true ->
  run w = (Stopped,
           mkStore (Some d)
             (preamble d ++
              [St_error (lit "Model file not found! Please add 'air_quality_model.pkl'.")])).
Proof.
  intros Hm He. start_run Hupload. unfold bind at 1. rewrite Hread. cbn.
  unfold st_write, bind, emit, lift. cbn. rewrite Hshown. cbn.
  unfold load_model, try_except, joblib_load, bind. cbn.
  rewrite Hm. cbn. rewrite He. reflexivity.
Qed.

Lemma run_model_load_raises (e : exn) :
  artifact w MODEL_PATH = Err e ->
  is_FileNotFoundError e = false ->
  run w = (Raised e, mkStore (Some d) (preamble d)).
Proof.
  intros Hm He. start_run Hupload. unfold bind at 1. rewrite Hread. cbn.
  unfold st_write, bind, emit, lift. cbn. rewrite Hshown. cbn.
  unfold load_model, try_except, joblib_load, bind. cbn.
  rewrite Hm. cbn. rewrite He. reflexivity.
Qed.

End Run.

(** Every run, case by case. *)
Lemma run_shapes (w : World) :
  (uploaded w = None /\ run w = (Done tt, mkStore None page_head))
  \/ (exists b e,
        uploaded w = Some b /\ read_csv b = Err e
        /\ run w = (Raised e, mkStore None page_head))
  \/ (exists b d e,
        uploaded w = Some b /\ read_csv b = Ok d
        /\ display w (head 5 d) = Err e
        /\ run w = (Raised e, mkStore (Some d) (preview d)))
  \/ (exists b d e,
        uploaded w = Some b /\ read_csv b = Ok d
        /\ display w (head 5 d) = Ok tt
        /\ artifact w MODEL_PATH = Err e
        /\ ((is_FileNotFoundError e = true
             /\ run w
                = (Stopped,
                   mkStore (Some d)
                     (preamble d ++
                      [St_error (lit "Model file not found! Please add 'air_quality_model.pkl'.")])))
            \/ (is_FileNotFoundError e = false
                /\ run w = (Raised e, mkStore (Some d) (preamble d)))))
  \/ (exists b d model,
        uploaded w = Some b /\ read_csv b = Ok d
        /\ display w (head 5 d) = Ok tt
        /\ artifact w MODEL_PATH = Ok model
        /\ ((pressed w = false
             /\ run w
                = (Done tt,
                   mkStore (Some d)
                     (preamble d ++ [St_button (lit "Predict AQI")])))
            \/ (pressed w = true
                /\ run w
                   = prediction w model
                       (mkStore (Some d)
                          (preamble d ++ [St_button (lit "Predict AQI")]))))).
Proof.
  destruct (uploaded w) as [b|] eqn:Hu.
  - destruct (read_csv b) as [d|e] eqn:Hr.
    + destruct (display w (head 5 d)) as [[]|e] eqn:Hs.
      * destruct (artifact w MODEL_PATH) as [model|e] eqn:Hm.
        -- right. right. right. right. exists b, d, model. repeat split; auto.
           rewrite (run_model_loaded w Hu Hr Hs Hm).
           destruct (pressed w); [right|left]; auto.
        -- right. right. right. left. exists b, d, e. repeat split; auto.
           destruct (is_FileNotFoundError e) eqn:He; [left|right]; split; auto.
           ++ apply (run_model_not_found w Hu Hr Hs Hm He).
           ++ apply (run_model_load_raises w Hu Hr Hs Hm He).
      * right. right. left. exists b, d, e. repeat split; auto.
        apply (run_preview_raises w Hu Hr Hs).
    + right. left. exists b, e. repeat split; auto.
      apply (run_read_raises w Hu Hr).
  - left. split; [reflexivity|]. apply (run_no_upload w Hu).
Qed.

(** ** Failure of the predictor *)

(** C3. When [model.predict] raises [e], the run ends normally after showing
    "Prediction failed: " followed by [str(e)]; the variable [data] still
    holds the table as it was read, no result table was shown and no download
    was offered.  (The button is drawn after the preview, so a run in which
    it is pressed is one in which [st.write(data.head())] returned.) *)
Theorem predictor_failure_reported (w : World) (b : bytes)
  (d features : DataFrame) (model : Predictor) (e : exn) :
  uploaded w = Some b ->
  read_csv b = Ok d ->
  display w (head 5 d) = Ok tt ->
  artifact w MODEL_PATH = Ok model ->
  pressed w = true ->
  drop [lit "AQI"] true d = Ok features ->
  predict model features = Err e ->
  run w = (Done tt,
           mkStore (Some d)
             (preamble d ++
              [St_button (lit "Predict AQI"); Model_predict features;
               St_error (lit "Prediction failed: " ++ exn_str e)]))
  /\ downloads (trace (snd (run w))) = [].
Proof.
  intros Hu Hr Hs Hm Hp Hd He.
  assert (run w = (Done tt,
           mkStore (Some d)
             (preamble d ++
              [St_button (lit "Predict AQI"); Model_predict features;
               St_error (lit "Prediction failed: " ++ exn_str e)]))) as E.
  { rewrite (run_model_loaded w Hu Hr Hs Hm), Hp.
    rewrite (@prediction_predict_raises w model d features _ Hd e He).
    rewrite <- app_assoc. reflexivity. }
  split; [exact E | rewrite E; reflexivity].
Qed.

Lemma predictor_failure_reported_witness :
  run (Scenario.world (Some Scenario.aqi_csv) true
         (Ok (Scenario.failing Scenario.schema_mismatch)))
  = (Done tt,
     mkStore (Some Scenario.aqi_table)
       (preamble Scenario.aqi_table ++
        [St_button (lit "Predict AQI");
         Model_predict
           (mkDF 2 [(lit "PM2.5", [VInt 30; VInt 50]);
                    (lit "PM10", [VInt 40; VInt 60])]);
         St_error (lit "Prediction failed: "
                   ++ lit "X has 3 features, but the model is expecting 2")]))
  /\ downloads
       (trace (snd (run (Scenario.world (Some Scenario.aqi_csv) true
                           (Ok (Scenario.failing Scenario.schema_mismatch))))))
     = [].
Proof.
  apply (@predictor_failure_reported
           (Scenario.world (Some Scenario.aqi_csv) true
              (Ok (Scenario.failing Scenario.schema_mismatch)))
           Scenario.aqi_csv Scenario.aqi_table
           (mkDF 2 [(lit "PM2.5", [VInt 30; VInt 50]);
                    (lit "PM10", [VInt 40; VInt 60])])
           (Scenario.failing Scenario.schema_mismatch)
           Scenario.schema_mismatch); reflexivity.
Defined.

(** ** Failure of the upload and of the model file *)

(** C4, as the code has it.  When [pd.read_csv] raises on the uploaded bytes,
    the exception leaves the script uncaught: the run ends with it after the
    upload widget, [data] is unbound (no table was produced), no message was
    shown with [st.error], and neither the model file nor the model was
    touched. *)
Theorem unreadable_upload_propagates (w : World) (b : bytes) (e : exn) :
  uploaded w = Some b ->
  read_csv b = Err e ->
  run w = (Raised e,
           mkStore None
             [St_set_page_config (lit "Air Quality Predictor") (lit "centered");
              St_title (lit "Air Quality Index (AQI) Prediction");
              St_markdown (lit "Upload the data and get AQI predictions instantly.");
              St_file_uploader (lit "Upload your CSV file") [lit "csv"]])
  /\ data (snd (run w)) = None
  /\ error_messages (trace (snd (run w))) = []
  /\ predict_calls (trace (snd (run w))) = [].
Proof.
  intros Hu Hr. rewrite (run_read_raises w Hu Hr). repeat split.
Qed.

Lemma unreadable_upload_propagates_witness :
  run (Scenario.world (Some []) true (Ok Scenario.pm_sum))
  = (Raised (mkExn EmptyDataError (lit "No columns to parse from file")),
     mkStore None
       [St_set_page_config (lit "Air Quality Predictor") (lit "centered");
        St_title (lit "Air Quality Index (AQI) Prediction");
        St_markdown (lit "Upload the data and get AQI predictions instantly.");
        St_file_uploader (lit "Upload your CSV file") [lit "csv"]])
  /\ data (snd (run (Scenario.world (Some []) true (Ok Scenario.pm_sum)))) = None
  /\ error_messages
       (trace (snd (run (Scenario.world (Some []) true (Ok Scenario.pm_sum))))) = []
  /\ predict_calls
       (trace (snd (run (Scenario.world (Some []) true (Ok Scenario.pm_sum))))) = [].
Proof.
  apply (@unreadable_upload_propagates
           (Scenario.world (Some []) true (Ok Scenario.pm_sum)) []
           (mkExn EmptyDataError (lit "No columns to parse from file")));
    reflexivity.
Defined.

(** C4, as stated, fails: the bytes of a PNG image are no delimited text,
    [pd.read_csv] raises on them, and the run ends with that exception
    uncaught and without any [st.error] message. *)
Lemma malformed_upload_counterexample :
  exists e,
    read_csv Scenario.png_bytes = Err e
    /\ fst (run (Scenario.world (Some Scenario.png_bytes) true (Ok Scenario.pm_sum)))
       = Raised e
    /\ error_messages
         (trace (snd (run (Scenario.world (Some Scenario.png_bytes) true
                             (Ok Scenario.pm_sum))))) = [].
Proof.
  eexists. repeat split.
Qed.

(** C5, as the code has it.  The script looks for the model file once the
    upload was read and its preview shown.  When [joblib.load] then raises
    anything but [FileNotFoundError], the [except FileNotFoundError] clause
    does not apply: the exception leaves the script uncaught right after
    the call, no message is shown with [st.error], the button is not drawn
    and the model is never called. *)
Theorem corrupt_model_propagates (w : World) (b : bytes) (d : DataFrame)
  (e : exn) :
  uploaded w = Some b ->
  read_csv b = Ok d ->
  display w (head 5 d) = Ok tt ->
  artifact w MODEL_PATH = Err e ->
  is_FileNotFoundError e = false ->
  run w = (Raised e, mkStore (Some d) (preamble d))
  /\ error_messages (trace (snd (run w))) = []
  /\ predict_calls (trace (snd (run w))) = [].
Proof.
  intros Hu Hr Hs Hm He. rewrite (run_model_load_raises w Hu Hr Hs Hm He).
  repeat split.
Qed.

Lemma corrupt_model_propagates_witness :
  run (Scenario.world (Some Scenario.aqi_csv) true (Err Scenario.unpickling_error))
  = (Raised Scenario.unpickling_error,
     mkStore (Some Scenario.aqi_table) (preamble Scenario.aqi_table))
  /\ error_messages
       (trace (snd (run (Scenario.world (Some Scenario.aqi_csv) true
                           (Err Scenario.unpickling_error))))) = []
  /\ predict_calls
       (trace (snd (run (Scenario.world (Some Scenario.aqi_csv) true
                           (Err Scenario.unpickling_error))))) = [].
Proof.
  apply (@corrupt_model_propagates
           (Scenario.world (Some Scenario.aqi_csv) true
              (Err Scenario.unpickling_error))
           Scenario.aqi_csv Scenario.aqi_table Scenario.unpickling_error);
    reflexivity.
Defined.

(** C5, as stated, fails: with a model file that does not unpickle the run
    ends with the exception of [joblib.load] uncaught, and nothing was shown
    with [st.error]. *)
Lemma corrupt_model_counterexample :
  fst (run (Scenario.world (Some Scenario.aqi_csv) true
              (Err Scenario.unpickling_error)))
  = Raised Scenario.unpickling_error
  /\ error_messages
       (trace (snd (run (Scenario.world (Some Scenario.aqi_csv) true
                           (Err Scenario.unpickling_error))))) = [].
Proof.
  split; reflexivity.
Qed.

(** C6. The script looks for the model file once the upload was read and
    its preview shown.  When [joblib.load] then raises [FileNotFoundError],
    the script shows "Model file not found! Please add
    'air_quality_model.pkl'." and stops: the run ends by [st.stop()], the
    button is not drawn and the model is never called, whether or not the
    button had been pressed. *)
Theorem missing_model_stops (w : World) (b : bytes) (d : DataFrame) (e : exn) :
  uploaded w = Some b ->
  read_csv b = Ok d ->
  display w (head 5 d) = Ok tt ->
  artifact w MODEL_PATH = Err e ->
  exn_cls e = FileNotFoundError ->
  run w = (Stopped,
           mkStore (Some d)
             (preamble d ++
              [St_error (lit "Model file not found! Please add 'air_quality_model.pkl'.")]))
  /\ predict_calls (trace (snd (run w))) = []
  /\ downloads (trace (snd (run w))) = [].
Proof.
  intros Hu Hr Hs Hm He.
  assert (is_FileNotFoundError e = true) as He'
    by (unfold is_FileNotFoundError; rewrite He; reflexivity).
  rewrite (run_model_not_found w Hu Hr Hs Hm He'). repeat split.
Qed.

Lemma missing_model_stops_witness :
  run (Scenario.world (Some Scenario.aqi_csv) true (Err Scenario.no_such_file))
  = (Stopped,
     mkStore (Some Scenario.aqi_table)
       (preamble Scenario.aqi_table ++
        [St_error (lit "Model file not found! Please add 'air_quality_model.pkl'.")]))
  /\ predict_calls
       (trace (snd (run (Scenario.world (Some Scenario.aqi_csv) true
                           (Err Scenario.no_such_file))))) = []
  /\ downloads
       (trace (snd (run (Scenario.world (Some Scenario.aqi_csv) true
                           (Err Scenario.no_such_file))))) = [].
Proof.
  apply (@missing_model_stops
           (Scenario.world (Some Scenario.aqi_csv) true (Err Scenario.no_such_file))
           Scenario.aqi_csv Scenario.aqi_table Scenario.no_such_file);
    reflexivity.
Defined.

(** ** The result table *)

Lemma setitem_names (values : list Cell) (d d' : DataFrame) (n : str) :
  setitem PREDICTED values d = Ok d' ->
  In n (column_names d') <-> In n (column_names d) \/ n = PREDICTED.
Proof.
  intros H. apply setitem_Ok in H as [-> _]. unfold column_names at 1. simpl.
  rewrite set_column_names. fold (column_names (ensure_valid_index values d)).
  rewrite ensure_valid_index_names. reflexivity.
Qed.

Lemma setitem_index (values : list Cell) (d d' : DataFrame) :
  setitem PREDICTED values d = Ok d' ->
  index d' = length values
  /\ (0 < index d \/ values = [] -> index d' = index d).
Proof.
  intros H. apply setitem_Ok in H as [-> E]. simpl. split; [reflexivity|].
  intros Hne. rewrite (ensure_valid_index_id _ Hne) in E. auto.
Qed.

(** C1. For a table that has a row, every prediction that shows no failure
    leaves in [data] a table with exactly the rows of the input (and one
    predicted value for each), whose column labels are those of the input
    together with [Predicted_AQI], whether or not the input had a column
    [AQI]. *)
Theorem prediction_rows_and_columns (w : World) (model : Predictor)
  (d : DataFrame) (tr : list Event) (out : Outcome unit) (st : Store) :
  0 < index d ->
  prediction w model (mkStore (Some d) tr) = (out, st) ->
  error_messages (events_since (length tr) st) = [] ->
  exists values d',
    data st = Some d'
    /\ index d' = index d
    /\ column PREDICTED d' = Some values
    /\ length values = index d
    /\ (forall n, In n (column_names d')
                  <-> In n (column_names d) \/ n = PREDICTED).
Proof.
  intros Hrows Hrun Hok.
  destruct (prediction_success_inv _ _ _ _ Hrun Hok)
    as (features & values & d' & csv & Hd & Hp & Hs & _ & _ & _ & ->).
  exists values, d'. simpl.
  destruct (setitem_index _ _ Hs) as [E1 E2].
  specialize (E2 (or_introl Hrows)).
  repeat split; try congruence; try apply (setitem_names _ _ n Hs).
  apply setitem_Ok in Hs as [-> _]. unfold column. simpl.
  rewrite set_column_find. reflexivity.
Qed.

Lemma prediction_rows_and_columns_witness :
  exists values d',
    data (snd (prediction Scenario.showing Scenario.pm_sum
                 (mkStore (Some Scenario.aqi_table) []))) = Some d'
    /\ index d' = index Scenario.aqi_table
    /\ column PREDICTED d' = Some values
    /\ length values = index Scenario.aqi_table
    /\ (forall n, In n (column_names d')
                  <-> In n (column_names Scenario.aqi_table) \/ n = PREDICTED).
Proof.
  apply (@prediction_rows_and_columns Scenario.showing Scenario.pm_sum
           Scenario.aqi_table []
           (fst (prediction Scenario.showing Scenario.pm_sum
                   (mkStore (Some Scenario.aqi_table) [])))
           (snd (prediction Scenario.showing Scenario.pm_sum
                   (mkStore (Some Scenario.aqi_table) []))));
    [repeat constructor | reflexivity | reflexivity].
Defined.

(** C10. When the table has a row and already has a column [Predicted_AQI],
    a prediction that shows no failure keeps the column labels and their
    order, puts the values of the model in that column in place of the
    uploaded ones, and leaves every other column with its values. *)
Theorem existing_prediction_overwritten (w : World) (model : Predictor)
  (d : DataFrame) (tr : list Event) (out : Outcome unit) (st : Store) :
  has_column PREDICTED d = true ->
  0 < index d ->
  prediction w model (mkStore (Some d) tr) = (out, st) ->
  error_messages (events_since (length tr) st) = [] ->
  exists features values d',
    drop [lit "AQI"] true d = Ok features
    /\ predict model features = Ok values
    /\ data st = Some d'
    /\ column_names d' = column_names d
    /\ column PREDICTED d' = Some values
    /\ other_columns d' = other_columns d
    /\ (forall n, n <> PREDICTED -> column n d' = column n d).
Proof.
  intros Hhas Hrows Hrun Hok.
  destruct (prediction_success_inv _ _ _ _ Hrun Hok)
    as (features & values & d' & csv & Hd & Hp & Hs & _ & _ & _ & ->).
  exists features, values, d'. simpl.
  apply setitem_Ok in Hs as [-> E].
  rewrite (@ensure_valid_index_id values d (or_introl Hrows)) in *.
  repeat split; auto.
  - unfold column_names at 1. simpl. apply set_column_same_names. exact Hhas.
  - unfold column. simpl. rewrite set_column_find. reflexivity.
  - unfold other_columns. simpl. apply set_column_others.
  - intros n Hn. unfold column. simpl.
    rewrite (set_column_find_other _ _ Hn). reflexivity.
Qed.

Lemma existing_prediction_overwritten_witness :
  exists features values d',
    drop [lit "AQI"] true Scenario.with_predicted = Ok features
    /\ predict (Scenario.constant [VInt 7; VInt 8]) features = Ok values
    /\ data (snd (prediction Scenario.showing (Scenario.constant [VInt 7; VInt 8])
                    (mkStore (Some Scenario.with_predicted) []))) = Some d'
    /\ column_names d' = column_names Scenario.with_predicted
    /\ column PREDICTED d' = Some values
    /\ other_columns d' = other_columns Scenario.with_predicted
    /\ (forall n, n <> PREDICTED ->
                  column n d' = column n Scenario.with_predicted).
Proof.
  apply (@existing_prediction_overwritten Scenario.showing
           (Scenario.constant [VInt 7; VInt 8])
           Scenario.with_predicted []
           (fst (prediction Scenario.showing (Scenario.constant [VInt 7; VInt 8])
                   (mkStore (Some Scenario.with_predicted) [])))
           (snd (prediction Scenario.showing (Scenario.constant [VInt 7; VInt 8])
                   (mkStore (Some Scenario.with_predicted) []))));
    [reflexivity | repeat constructor | reflexivity | reflexivity].
Defined.

(** ** The features and the call of the model *)

Lemma filter_all {A} (f : A -> bool) (l : list A) :
  forallb f l = true -> filter f l = l.
Proof.
  induction l as [|x l IH]; simpl; auto.
  intros H. apply andb_true_iff in H as [-> H]. rewrite IH; auto.
Qed.

Lemma drop_AQI_absent (d : DataFrame) :
  has_column (lit "AQI") d = false -> drop [lit "AQI"] true d = Ok d.
Proof.
  intros H. rewrite drop_AQI. destruct d as [n cols]. simpl. f_equal. f_equal.
  apply filter_all. apply forallb_forall. intros [a c] Hin. simpl.
  apply negb_true_iff, str_eqb_neq. intros ->.
  assert (has_column (lit "AQI") (mkDF n cols) = true) as H'.
  { apply str_in_In. unfold column_names. simpl.
    apply (in_map fst) in Hin. exact Hin. }
  congruence.
Qed.

(** C2, as the code has it.  A prediction that shows no failure (1) passed
    to the model the table without the columns labelled [AQI], which is the
    table itself when it has none; (2) called the model once, with all the
    rows; (3) stored the answer under [Predicted_AQI] in the table that was
    read, not in the features: as a last column when the table had no such
    column, and in place of the values of that column otherwise; (4) left
    every other column, [AQI] included, as the assignment found it, that is
    unchanged whenever the table has a row (or the model returned nothing).
    For the file "AQI,PM2.5,PM10 / 100,30,40 / 200,50,60" and the model
    [PM2.5 + PM10] the rows of the result are (100, 30, 40, 70) and
    (200, 50, 60, 110). *)
Theorem prediction_contract :
  (forall (w : World) (model : Predictor) (d : DataFrame) (tr : list Event)
          (out : Outcome unit) (st : Store),
      prediction w model (mkStore (Some d) tr) = (out, st) ->
      error_messages (events_since (length tr) st) = [] ->
      exists features values d' csv,
        drop [lit "AQI"] true d = Ok features
        /\ index features = index d
        /\ columns features
           = filter (fun c => negb (str_eqb (fst c) (lit "AQI"))) (columns d)
        /\ (has_column (lit "AQI") d = false -> features = d)
        /\ predict model features = Ok values
        /\ events_since (length tr) st
           = [Model_predict features; St_subheader (lit "Prediction Results");
              St_write d'; download_event csv]
        /\ predict_calls (events_since (length tr) st) = [features]
        /\ data st = Some d'
        /\ column PREDICTED d' = Some values
        /\ (has_column PREDICTED d = false ->
            columns d'
            = columns (ensure_valid_index values d) ++ [(PREDICTED, values)])
        /\ other_columns d' = other_columns (ensure_valid_index values d)
        /\ (0 < index d \/ values = [] ->
            other_columns d' = other_columns d
            /\ (has_column PREDICTED d = false ->
                columns d' = columns d ++ [(PREDICTED, values)])
            /\ forall n, n <> PREDICTED -> column n d' = column n d))
  /\ read_csv Scenario.aqi_csv = Ok Scenario.aqi_table
  /\ fst (run (Scenario.world (Some Scenario.aqi_csv) true (Ok Scenario.pm_sum)))
     = Done tt
  /\ data (snd (run (Scenario.world (Some Scenario.aqi_csv) true
                       (Ok Scenario.pm_sum))))
     = Some Scenario.aqi_result
  /\ rows Scenario.aqi_result
     = [[VInt 100; VInt 30; VInt 40; VInt 70];
        [VInt 200; VInt 50; VInt 60; VInt 110]].
Proof.
  split; [|repeat split].
  intros w model d tr out st Hrun Hok.
  destruct (prediction_success_inv _ _ _ _ Hrun Hok)
    as (features & values & d' & csv & Hd & Hp & Hs & _ & _ & _ & ->).
  exists features, values, d', csv.
  rewrite events_since_app. simpl.
  pose proof Hd as Hd'. rewrite drop_AQI in Hd'. injection Hd' as <-.
  apply setitem_Ok in Hs as [-> E].
  assert (other_columns
            (mkDF (length values)
               (set_column PREDICTED values
                  (columns (ensure_valid_index values d))))
          = other_columns (ensure_valid_index values d)) as Ho
    by (unfold other_columns; simpl; apply set_column_others).
  assert (has_column PREDICTED d = false ->
          set_column PREDICTED values (columns (ensure_valid_index values d))
          = columns (ensure_valid_index values d) ++ [(PREDICTED, values)]) as Hnew.
  { intros Hno. unfold set_column.
    fold (column_names (ensure_valid_index values d)).
    rewrite ensure_valid_index_names. unfold has_column in Hno.
    rewrite Hno. reflexivity. }
  repeat split; auto.
  - intros Hno. pose proof (drop_AQI_absent _ Hno) as Hd2.
    rewrite drop_AQI in Hd2. injection Hd2 as Hd2.
    destruct d as [n cols]. simpl in *. rewrite Hd2. reflexivity.
  - unfold column. simpl. rewrite set_column_find. reflexivity.
  - rewrite Ho, (ensure_valid_index_id _ H). reflexivity.
  - intros Hno. simpl. rewrite (Hnew Hno), (ensure_valid_index_id _ H).
    reflexivity.
  - intros n Hn. unfold column. simpl.
    rewrite (set_column_find_other _ _ Hn), (ensure_valid_index_id _ H).
    reflexivity.
Qed.

Lemma prediction_contract_witness :
  exists features values d' csv,
    drop [lit "AQI"] true Scenario.aqi_table = Ok features
    /\ index features = index Scenario.aqi_table
    /\ columns features
       = filter (fun c => negb (str_eqb (fst c) (lit "AQI")))
           (columns Scenario.aqi_table)
    /\ (has_column (lit "AQI") Scenario.aqi_table = false
        -> features = Scenario.aqi_table)
    /\ predict Scenario.pm_sum features = Ok values
    /\ events_since 0
         (snd (prediction Scenario.showing Scenario.pm_sum (mkStore (Some Scenario.aqi_table) [])))
       = [Model_predict features; St_subheader (lit "Prediction Results");
          St_write d'; download_event csv]
    /\ predict_calls
         (events_since 0
            (snd (prediction Scenario.showing Scenario.pm_sum
                    (mkStore (Some Scenario.aqi_table) []))))
       = [features]
    /\ data (snd (prediction Scenario.showing Scenario.pm_sum
                    (mkStore (Some Scenario.aqi_table) []))) = Some d'
    /\ column PREDICTED d' = Some values
    /\ (has_column PREDICTED Scenario.aqi_table = false ->
        columns d'
        = columns (ensure_valid_index values Scenario.aqi_table)
          ++ [(PREDICTED, values)])
    /\ other_columns d'
       = other_columns (ensure_valid_index values Scenario.aqi_table)
    /\ (0 < index Scenario.aqi_table \/ values = [] ->
        other_columns d' = other_columns Scenario.aqi_table
        /\ (has_column PREDICTED Scenario.aqi_table = false ->
            columns d' = columns Scenario.aqi_table ++ [(PREDICTED, values)])
        /\ forall n, n <> PREDICTED -> column n d' = column n Scenario.aqi_table).
Proof.
  apply (proj1 prediction_contract Scenario.showing Scenario.pm_sum
           Scenario.aqi_table []
           (fst (prediction Scenario.showing Scenario.pm_sum (mkStore (Some Scenario.aqi_table) [])))
           (snd (prediction Scenario.showing Scenario.pm_sum (mkStore (Some Scenario.aqi_table) []))));
    reflexivity.
Defined.

(** C2, as stated, fails for a table that already has a column
    [Predicted_AQI]: the prediction succeeds, nothing is appended, and the
    column the user uploaded is not in the result. *)
Lemma prediction_contract_counterexample :
  read_csv Scenario.with_predicted_csv = Ok Scenario.with_predicted
  /\ exists st,
       prediction Scenario.showing (Scenario.constant [VInt 7; VInt 8])
         (mkStore (Some Scenario.with_predicted) []) = (Done tt, st)
       /\ error_messages (events_since 0 st) = []
       /\ data st = Some Scenario.with_predicted_result
       /\ In (PREDICTED, [VInt 5; VInt 6]) (columns Scenario.with_predicted)
       /\ ~ In (PREDICTED, [VInt 5; VInt 6])
              (columns Scenario.with_predicted_result).
Proof.
  split; [reflexivity|]. eexists. repeat split.
  - right. left. reflexivity.
  - intros [H|[H|[]]]; discriminate H.
Qed.

(** ** Repeating a prediction *)

(** What the prediction block does depends on the table, on the model and
    on Streamlit only: not on what the run has shown before. *)
Lemma prediction_uniform (w : World) (model : Predictor) (d : DataFrame) :
  exists d' evs, forall tr,
    prediction w model (mkStore (Some d) tr) = (Done tt, mkStore (Some d') (tr ++ evs)).
Proof.
  destruct (drop [lit "AQI"] true d) as [features|e0] eqn:Hdrop;
    [|rewrite drop_AQI in Hdrop; discriminate Hdrop].
  destruct (predict model features) as [values|e] eqn:Hp.
  - destruct (setitem PREDICTED values d) as [d'|e] eqn:Hs.
    + destruct (display w d') as [[]|e] eqn:Hw.
      * destruct (export_csv d') as [csv|e] eqn:He.
        -- do 2 eexists. intros tr.
           apply (@prediction_succeeds w model d features tr Hdrop values d' csv
                    Hp Hs Hw He).
        -- do 2 eexists. intros tr.
           apply (@prediction_export_raises w model d features tr Hdrop values
                    d' e Hp Hs Hw He).
      * do 2 eexists. intros tr.
        apply (@prediction_display_raises w model d features tr Hdrop values
                 d' e Hp Hs Hw).
    + do 2 eexists. intros tr.
      apply (@prediction_setitem_raises w model d features tr Hdrop values e Hp Hs).
  - do 2 eexists. intros tr.
    apply (@prediction_predict_raises w model d features tr Hdrop e Hp).
Qed.




(** The rereading matters: the block itself, run again on the table it has
    updated, passes [Predicted_AQI] to the model as a feature. *)
Example prediction_on_updated_table :
  exists st1 st2,
    prediction Scenario.showing Scenario.width
      (mkStore (Some Scenario.aqi_table) []) = (Done tt, st1)
    /\ prediction Scenario.showing Scenario.width st1 = (Done tt, st2)
    /\ option_map (column PREDICTED) (data st1) = Some (Some [VInt 2; VInt 2])
    /\ option_map (column PREDICTED) (data st2) = Some (Some [VInt 3; VInt 3]).
Proof.
  do 2 eexists. repeat split.
Qed.

(** ** UTF-8: decoding what was encoded *)

Ltac Zify.zify_post_hook ::= Z.to_euclidean_division_equations.

Ltac decide_tests :=
  repeat (match goal with
          | |- context [N.ltb ?a ?b] =>
              first [ rewrite (proj2 (N.ltb_lt a b)) by lia
                    | rewrite (proj2 (N.ltb_ge a b)) by lia ]
          | |- context [N.leb ?a ?b] =>
              first [ rewrite (proj2 (N.leb_le a b)) by lia
                    | rewrite (proj2 (N.leb_gt a b)) by lia ]
          end; cbn [andb negb orb]).

Lemma Some_eq {A} (x y : A) : Some x = Some y -> x = y.
Proof. intros [= ->]. reflexivity. Qed.

Lemma decode_encode_cp (c : N) (bs rest : bytes) :
  encode_cp c = Some bs ->
  decode_utf8 (bs ++ rest) = option_map (cons c) (decode_utf8 rest).
Proof.
  unfold encode_cp, is_surrogate.
  destruct (N.ltb_spec c 128) as [H1|H1].
  { intros E. apply Some_eq in E. subst bs. cbn [List.app decode_utf8].
    decide_tests. reflexivity. }
  destruct (N.ltb_spec c 2048) as [H2|H2].
  { intros E. apply Some_eq in E. subst bs. cbn [List.app decode_utf8].
    unfold is_cont. decide_tests. do 2 f_equal. lia. }
  destruct (N.ltb_spec c 65536) as [H3|H3].
  { destruct (N.leb_spec 55296 c) as [H4|H4];
      [destruct (N.leb_spec c 57343) as [H5|H5]|]; cbn [andb];
      try discriminate; intros E; apply Some_eq in E; subst bs;
      cbn [List.app decode_utf8];
      unfold is_cont, is_surrogate; decide_tests;
      do 2 f_equal; lia. }
  destruct (N.ltb_spec c 1114112) as [H4|H4]; [|discriminate].
  intros E. apply Some_eq in E. subst bs. cbn [List.app decode_utf8].
  unfold is_cont. decide_tests. do 2 f_equal. lia.
Qed.

Lemma decode_encode (s : str) (b : bytes) :
  encode_utf8 s = Some b -> decode_utf8 b = Some s.
Proof.
  revert b. induction s as [|c s IH]; simpl.
  - intros b [= <-]. reflexivity.
  - intros b. destruct (encode_cp c) as [bs|] eqn:Ec; [|discriminate].
    destruct (encode_utf8 s) as [r|] eqn:Es; [|discriminate].
    intros [= <-]. rewrite (@decode_encode_cp c bs r Ec), (IH r eq_refl).
    reflexivity.
Qed.

Unset Implicit Arguments.

(** ** Lists *)



Lemma forallb_impl {A : Type} (p q : A -> bool) (l : list A) :
  (forall x, p x = true -> q x = true) ->
  forallb p l = true -> forallb q l = true.
Proof.
  intros H Hp. apply forallb_forall. intros x Hx.
  rewrite forallb_forall in Hp. auto.
Qed.

Lemma filter_map_fst {A B : Type} (p : A -> bool) (g : A * B -> A * B)
  (l : list (A * B)) :
  (forall c, fst (g c) = fst c) ->
  filter (fun c => p (fst c)) (map g l) = map g (filter (fun c => p (fst c)) l).
Proof.
  intros H. induction l as [|c l IH]; simpl; [reflexivity|].
  rewrite H. destruct (p (fst c)); simpl; rewrite IH; reflexivity.
Qed.

Lemma infer_column_length (fields : list str) :
  length (infer_column fields) = length fields.
Proof.
  unfold infer_column. destruct (int_literals fields) as [zs|] eqn:E.
  - rewrite length_map. revert zs E.
    induction fields as [|f fields IH]; simpl; intros zs E.
    + injection E as <-. reflexivity.
    + destruct (int_literal f); [|discriminate].
      destruct (int_literals fields); [|discriminate].
      injection E as <-. simpl. rewrite (IH l eq_refl). reflexivity.
  - apply length_map.
Qed.

Lemma records_false (d : DataFrame) :
  records false d
  = column_names d :: map (fun i => map render (row d i)) (seq 0 (index d)).
Proof. reflexivity. Qed.


(** ** Printed integers *)

Lemma lit_String (a : ascii) (s : string) :
  lit (String a s) = N_of_ascii a :: lit s.
Proof. reflexivity. Qed.

Lemma uint_chars (u : uint) :
  forallb int_char (lit (NilEmpty.string_of_uint u)) = true.
Proof.
  induction u; cbn [NilEmpty.string_of_uint]; try reflexivity;
    rewrite lit_String; cbn [forallb]; rewrite IHu; reflexivity.
Qed.

Lemma int_chars (d : int) :
  forallb int_char (lit (NilZero.string_of_int d)) = true.
Proof.
  assert (forall u, forallb int_char (lit (NilZero.string_of_uint u)) = true) as H.
  { intros u. destruct u; try reflexivity; apply uint_chars. }
  destruct d as [u|u]; cbn [NilZero.string_of_int].
  - apply H.
  - rewrite lit_String. cbn [forallb]. rewrite H. reflexivity.
Qed.

Lemma str_of_int_chars (z : Z) : forallb int_char (str_of_int z) = true.
Proof. apply int_chars. Qed.

Lemma int_char_facts (c : N) :
  int_char c = true ->
  N.ltb c 128 = true /\ special c = false /\ is_space c = false
  /\ is_whitespace c = false /\ c <> 43%N /\ c <> BOM.
Proof.
  unfold int_char. intros H. apply orb_true_iff in H as [H|H].
  - apply N.eqb_eq in H. subst c. repeat split; discriminate.
  - apply andb_true_iff in H as [H1 H2].
    apply N.leb_le in H1. apply N.leb_le in H2.
    unfold special, is_space, is_whitespace, COMMA, QUOTE, LF, CR, BOM.
    cbn [existsb]. repeat split; try lia.
    + apply N.ltb_lt. lia.
    + repeat (apply orb_false_iff; split); apply N.eqb_neq; lia.
    + repeat (apply orb_false_iff; split); try reflexivity; apply N.eqb_neq; lia.
    + apply orb_false_iff; split; apply N.eqb_neq; lia.
Qed.





(** ** Columns that read back as they were *)




(** ** The tokenizer on what [to_csv] wrote *)

Lemma special_false (c : N) :
  special c = false ->
  N.eqb c COMMA = false /\ N.eqb c QUOTE = false
  /\ N.eqb c LF = false /\ N.eqb c CR = false.
Proof.
  unfold special. intros H.
  apply orb_false_iff in H as [H H4]. apply orb_false_iff in H as [H H3].
  apply orb_false_iff in H as [H1 H2]. auto.
Qed.

Lemma whitespace_not_special (c : N) :
  is_whitespace c = true -> special c = false.
Proof.
  unfold is_whitespace. intros H. apply orb_true_iff in H as [H|H];
    apply N.eqb_eq in H; subst c; reflexivity.
Qed.







(** A line of blanks is skipped. *)
Lemma tok_ws_blank (f : str) :
  forall (w : str) (ln : list str) (L : list (list str)),
    is_blank f = true ->
    fold_left (step true) (f ++ [LF]) (mkTok WHITESPACE_LINE w ln L)
    = mkTok START_RECORD [] ln L.
Proof.
  induction f as [|c f IH]; intros w ln L H; [reflexivity|].
  cbn [is_blank forallb] in H. apply andb_true_iff in H as [Hc Hf].
  destruct (special_false c (whitespace_not_special c Hc)) as (H1 & H2 & H3 & H4).
  cbn [List.app fold_left].
  assert (step true (mkTok WHITESPACE_LINE w ln L) c
          = mkTok WHITESPACE_LINE (w ++ [c]) ln L) as ->
    by (unfold step; cbn [state]; rewrite H3, H4, Hc; reflexivity).
  apply IH. exact Hf.
Qed.









(** ** What the tokenizer holds *)

Lemma step_held (skip : bool) (t : Tokenizer) (c x : N) :
  In x (held (step skip t c)) -> x = c \/ In x (held t).
Proof.
  destruct t as [st w ln L]. unfold held.
  destruct st; unfold step, start_record, start_field, in_field, goto,
    push_char, end_field, end_line; cbn [state word line lines];
    repeat match goal with
           | |- context [if ?b then _ else _] => destruct b
           end;
    cbn [state word line lines];
    rewrite ?concat_app; cbn [concat]; rewrite ?concat_app; cbn [concat];
    rewrite ?app_nil_r, ?in_app_iff; cbn [In]; rewrite ?in_app_iff;
    intuition.
Qed.

Lemma fold_held (skip : bool) (text : str) :
  forall (t : Tokenizer) (x : N),
    In x (held (fold_left (step skip) text t)) -> In x text \/ In x (held t).
Proof.
  induction text as [|c text IH]; intros t x H; [right; exact H|].
  cbn [fold_left] in H. destruct (IH _ _ H) as [H'|H'].
  - left. right. exact H'.
  - destruct (step_held skip t c x H') as [->|H'']; [left; left; reflexivity|].
    right. exact H''.
Qed.

Lemma at_eof_held (t : Tokenizer) (recs : list (list str)) (r : list str)
  (f : str) (x : N) :
  at_eof t = Some recs -> In r recs -> In f r -> In x f -> In x (held t).
Proof.
  destruct t as [st w ln L]. unfold at_eof, held, end_line, end_field.
  cbn [state word line lines]. intros E Hr Hf Hx.
  assert (In x (concat (concat recs))) as H.
  { apply in_concat. exists f. split; [|exact Hx].
    apply in_concat. exists r. auto. }
  destruct st; try discriminate E; apply Some_eq in E; subst recs;
    rewrite ?concat_app in H; cbn [concat] in H; rewrite ?concat_app in H;
    cbn [concat] in H; rewrite ?app_nil_r, ?in_app_iff in H;
    rewrite ?in_app_iff; intuition.
Qed.

(** Every character of a field comes from the text. *)
Lemma tokenize_chars (skip : bool) (text : str) (recs : list (list str))
  (r : list str) (f : str) (x : N) :
  tokenize skip text = Some recs -> In r recs -> In f r -> In x f -> In x text.
Proof.
  unfold tokenize. intros E Hr Hf Hx.
  pose proof (at_eof_held _ recs r f x E Hr Hf Hx) as H.
  apply fold_held in H as [H|H]; [exact H | destruct H].
Qed.

Lemma skip_bom_chars (text : str) (x : N) : In x (skip_bom text) -> In x text.
Proof.
  destruct text as [|c text]; [auto|]. cbn [skip_bom].
  destruct (N.eqb c BOM); [right; assumption | auto].
Qed.

(** ** Blank lines *)

Lemma tok_blank_lines (ls : list str) (L : list (list str)) :
  Forall (fun l => is_blank l = true) ls ->
  fold_left (step true) (flat_map (fun l => l ++ [LF]) ls)
    (mkTok START_RECORD [] [] L)
  = mkTok START_RECORD [] [] L.
Proof.
  induction 1 as [|l ls Hl Hls IH]; [reflexivity|].
  cbn [flat_map]. rewrite fold_left_app.
  assert (fold_left (step true) (l ++ [LF]) (mkTok START_RECORD [] [] L)
          = mkTok START_RECORD [] [] L) as ->; [|exact IH].
  destruct l as [|c l]; [reflexivity|].
  cbn [is_blank forallb] in Hl. apply andb_true_iff in Hl as [Hc Hl].
  destruct (special_false c (whitespace_not_special c Hc)) as (H1 & H2 & H3 & H4).
  cbn [List.app fold_left].
  assert (step true (mkTok START_RECORD [] [] L) c
          = mkTok WHITESPACE_LINE [c] [] L) as ->
    by (unfold step, start_record; cbn [state]; rewrite H3, H4, Hc; reflexivity).
  apply tok_ws_blank. exact Hl.
Qed.

(** ** Reading what [to_csv] wrote *)





Lemma set_column_In (key : str) (values : list Cell)
  (cols : list (str * list Cell)) (c : str * list Cell) :
  In c (set_column key values cols) -> In c cols \/ c = (key, values).
Proof.
  unfold set_column. destruct (str_in key (map fst cols)).
  - intros H. apply in_map_iff in H as (c0 & <- & H0).
    destruct (str_eqb (fst c0) key); auto.
  - intros H. apply in_app_or in H as [H|[<-|[]]]; auto.
Qed.


Lemma export_csv_Ok (d : DataFrame) (csv : bytes) :
  export_csv d = Ok csv -> decode_utf8 csv = Some (to_csv false d).
Proof.
  unfold export_csv, encode.
  destruct (encode_utf8 (to_csv false d)) as [b|] eqn:E; [|discriminate].
  intros [= <-]. apply decode_encode. exact E.
Qed.


(** ** Tables as [read_csv] makes them *)

Lemma read_csv_Ok (b : bytes) (d : DataFrame) :
  read_csv b = Ok d ->
  exists text names recs k,
    decode_utf8 b = Some text
    /\ tokenize true (skip_bom text) = Some (names :: recs)
    /\ d = mkDF (length recs)
             (map (fun j => (field j names,
                             infer_column (map (field (k + j)) recs)))
                  (seq 0 (length names))).
Proof.
  unfold read_csv. destruct (decode_utf8 b) as [text|] eqn:Hdec; [|discriminate].
  destruct (tokenize true (skip_bom text)) as [[|names recs]|] eqn:Htok;
    try discriminate.
  unfold frame. destruct (existsb _ recs); [discriminate|].
  intros [= <-]. exists text, names, recs,
    (Nat.max (length names) (length (hd [] recs)) - length names).
  split; [reflexivity|]. split; [exact Htok | reflexivity].
Qed.

Lemma read_csv_aligned (b : bytes) (d : DataFrame) :
  read_csv b = Ok d -> aligned d.
Proof.
  intros H. destruct (read_csv_Ok b d H) as (text & names & recs & k & _ & _ & ->).
  unfold aligned. simpl. apply Forall_forall. intros c Hc.
  apply in_map_iff in Hc as (j & <- & _). simpl.
  rewrite infer_column_length, length_map. reflexivity.
Qed.


(** ** Reading back an exported table *)










(** ** The exported bytes *)

Lemma encode_cp_scalar (c : N) :
  scalar c = true -> exists bs, encode_cp c = Some bs.
Proof.
  unfold scalar, encode_cp. intros H. apply andb_true_iff in H as [H1 H2].
  apply negb_true_iff in H2. rewrite H1, H2.
  destruct (N.ltb c 128); [eauto|].
  destruct (N.ltb c 2048); [eauto|].
  destruct (N.ltb c 65536); eauto.
Qed.

Lemma encode_scalar (s : str) :
  forallb scalar s = true -> exists b, encode_utf8 s = Some b.
Proof.
  induction s as [|c s IH]; simpl; [eauto|].
  intros H. apply andb_true_iff in H as [Hc Hs].
  destruct (encode_cp_scalar c Hc) as [bs ->].
  destruct (IH Hs) as [b ->]. eauto.
Qed.

Lemma scalar_app (a b : str) :
  forallb scalar a = true -> forallb scalar b = true ->
  forallb scalar (a ++ b) = true.
Proof. intros Ha Hb. rewrite forallb_app, Ha, Hb. reflexivity. Qed.

Lemma scalar_int_chars (f : str) :
  forallb int_char f = true -> forallb scalar f = true.
Proof.
  apply forallb_impl. intros c Hc.
  destruct (int_char_facts c Hc) as (Hlt & _). apply N.ltb_lt in Hlt.
  unfold scalar, is_surrogate. apply andb_true_iff. split.
  - apply N.ltb_lt. lia.
  - apply negb_true_iff, andb_false_iff. left. apply N.leb_gt. lia.
Qed.

Lemma scalar_render (c : Cell) :
  cell_encodable c = true -> forallb scalar (render c) = true.
Proof.
  destruct c as [z|s|]; simpl; auto.
  intros _. apply scalar_int_chars, str_of_int_chars.
Qed.

Lemma scalar_quote_field (f : str) :
  forallb scalar f = true -> forallb scalar (quote_field f) = true.
Proof.
  intros H. unfold quote_field. destruct (needs_quote f); [|exact H].
  cbn [forallb]. apply andb_true_iff. split; [reflexivity|].
  apply scalar_app; [|reflexivity].
  apply forallb_forall. intros c Hc. apply in_flat_map in Hc as (x & Hx & Hc).
  rewrite forallb_forall in H.
  destruct (N.eqb x QUOTE).
  - destruct Hc as [<-|[<-|[]]]; reflexivity.
  - destruct Hc as [<-|[]]. apply H. exact Hx.
Qed.

Lemma scalar_join (fields : list str) :
  Forall (fun f => forallb scalar f = true) fields ->
  forallb scalar (join COMMA fields) = true.
Proof.
  induction 1 as [|f fields Hf Hrest IH]; [reflexivity|].
  destruct fields as [|g fields]; [exact Hf|].
  change (join COMMA (f :: g :: fields))
    with (f ++ COMMA :: join COMMA (g :: fields)).
  apply scalar_app; [exact Hf|]. cbn [forallb]. rewrite IH. reflexivity.
Qed.

Lemma scalar_write_row (fields : list str) :
  Forall (fun f => forallb scalar f = true) fields ->
  forallb scalar (write_row fields) = true.
Proof.
  intros H.
  assert (forallb scalar (join COMMA (map quote_field fields) ++ [LF]) = true) as G.
  { apply scalar_app; [|reflexivity]. apply scalar_join.
    apply Forall_forall. intros f Hf. apply in_map_iff in Hf as (g & <- & Hg).
    apply scalar_quote_field. rewrite Forall_forall in H. auto. }
  unfold write_row. destruct fields as [|[|c f] [|g fields]]; auto.
Qed.

Lemma scalar_to_csv (d : DataFrame) :
  encodable d = true -> forallb scalar (to_csv false d) = true.
Proof.
  unfold encodable. intros H. rewrite forallb_forall in H.
  unfold to_csv. apply forallb_forall. intros c Hc.
  apply in_flat_map in Hc as (r & Hr & Hc).
  assert (forallb scalar (write_row r) = true) as G.
  { apply scalar_write_row. rewrite records_false in Hr.
    destruct Hr as [<-|Hr].
    - apply Forall_forall. intros n Hn. unfold column_names in Hn.
      apply in_map_iff in Hn as (col & <- & Hcol).
      specialize (H col Hcol). apply andb_true_iff in H. tauto.
    - apply in_map_iff in Hr as (i & <- & _).
      apply Forall_forall. intros f Hf. unfold row in Hf. rewrite map_map in Hf.
      apply in_map_iff in Hf as (col & <- & Hcol).
      specialize (H col Hcol). apply andb_true_iff in H as [_ H].
      apply scalar_render.
      destruct (nth_in_or_default i (snd col) VNaN) as [Hin| ->];
        [|reflexivity].
      rewrite forallb_forall in H. auto. }
  rewrite forallb_forall in G. auto.
Qed.



(** * Further properties of the script *)

(** ** Runs without a prediction *)

(** X1. Without an uploaded file the script draws the page head and the
    upload widget and ends: it does not look for the model file (so a missing
    or broken model file is not reported), does not draw the button and
    shows no message, whatever the button state. *)
Theorem no_upload_page_only (w : World) :
  uploaded w = None ->
  run w = (Done tt,
           mkStore None
             [St_set_page_config (lit "Air Quality Predictor") (lit "centered");
              St_title (lit "Air Quality Index (AQI) Prediction");
              St_markdown (lit "Upload the data and get AQI predictions instantly.");
              St_file_uploader (lit "Upload your CSV file") [lit "csv"]])
  /\ ~ In (Joblib_load MODEL_PATH) (trace (snd (run w)))
  /\ error_messages (trace (snd (run w))) = []
  /\ predict_calls (trace (snd (run w))) = [].
Proof.
  intros Hu. rewrite (run_no_upload w Hu). repeat split.
  simpl. intros [H|[H|[H|[H|[]]]]]; discriminate H.
Qed.

Lemma no_upload_page_only_witness :
  run (Scenario.world None true (Err Scenario.unpickling_error))
  = (Done tt,
     mkStore None
       [St_set_page_config (lit "Air Quality Predictor") (lit "centered");
        St_title (lit "Air Quality Index (AQI) Prediction");
        St_markdown (lit "Upload the data and get AQI predictions instantly.");
        St_file_uploader (lit "Upload your CSV file") [lit "csv"]])
  /\ ~ In (Joblib_load MODEL_PATH)
         (trace (snd (run (Scenario.world None true
                             (Err Scenario.unpickling_error)))))
  /\ error_messages
       (trace (snd (run (Scenario.world None true
                           (Err Scenario.unpickling_error))))) = []
  /\ predict_calls
       (trace (snd (run (Scenario.world None true
                           (Err Scenario.unpickling_error))))) = [].
Proof.
  apply (no_upload_page_only
           (Scenario.world None true (Err Scenario.unpickling_error))).
  reflexivity.
Defined.

(** X2. With a readable upload whose preview Streamlit can show and a model
    that loads, a run in which the button is not pressed shows the preview,
    loads the model, draws the button and ends: the model is loaded but
    never called, [data] holds the table as read, and nothing is offered
    for download. *)
Theorem button_not_pressed (w : World) (b : bytes) (d : DataFrame)
  (model : Predictor) :
  uploaded w = Some b ->
  read_csv b = Ok d ->
  display w (head 5 d) = Ok tt ->
  artifact w MODEL_PATH = Ok model ->
  pressed w = false ->
  run w = (Done tt,
           mkStore (Some d) (preamble d ++ [St_button (lit "Predict AQI")]))
  /\ In (Joblib_load MODEL_PATH) (trace (snd (run w)))
  /\ predict_calls (trace (snd (run w))) = []
  /\ downloads (trace (snd (run w))) = []
  /\ error_messages (trace (snd (run w))) = [].
Proof.
  intros Hu Hr Hs Hm Hp. rewrite (run_model_loaded w Hu Hr Hs Hm), Hp.
  repeat split. simpl. tauto.
Qed.

Lemma button_not_pressed_witness :
  run (Scenario.world (Some Scenario.aqi_csv) false (Ok Scenario.pm_sum))
  = (Done tt,
     mkStore (Some Scenario.aqi_table)
       (preamble Scenario.aqi_table ++ [St_button (lit "Predict AQI")]))
  /\ In (Joblib_load MODEL_PATH)
       (trace (snd (run (Scenario.world (Some Scenario.aqi_csv) false
                           (Ok Scenario.pm_sum)))))
  /\ predict_calls
       (trace (snd (run (Scenario.world (Some Scenario.aqi_csv) false
                           (Ok Scenario.pm_sum))))) = []
  /\ downloads
       (trace (snd (run (Scenario.world (Some Scenario.aqi_csv) false
                           (Ok Scenario.pm_sum))))) = []
  /\ error_messages
       (trace (snd (run (Scenario.world (Some Scenario.aqi_csv) false
                           (Ok Scenario.pm_sum))))) = [].
Proof.
  apply (button_not_pressed
           (Scenario.world (Some Scenario.aqi_csv) false (Ok Scenario.pm_sum))
           Scenario.aqi_csv Scenario.aqi_table Scenario.pm_sum);
    reflexivity.
Defined.

(** ** Runs with a prediction *)

(** X3. With a readable upload and a model that loads, a run in which the
    button is pressed always ends normally, whatever the model answers or
    raises; it calls the model exactly once, with the table without [AQI];
    and it shows either exactly one download and no failure message, or
    exactly one message "Prediction failed: ..." and no download.  (The
    button is drawn after the preview, so a run in which it is pressed is
    one in which [st.write(data.head())] returned.) *)
Theorem pressed_result_or_failure (w : World) (b : bytes) (d : DataFrame)
  (model : Predictor) :
  uploaded w = Some b ->
  read_csv b = Ok d ->
  display w (head 5 d) = Ok tt ->
  artifact w MODEL_PATH = Ok model ->
  pressed w = true ->
  fst (run w) = Done tt
  /\ (exists features,
        drop [lit "AQI"] true d = Ok features
        /\ predict_calls (trace (snd (run w))) = [features])
  /\ ((exists csv,
         downloads (trace (snd (run w))) = [csv]
         /\ error_messages (trace (snd (run w))) = [])
      \/ (exists e,
            error_messages (trace (snd (run w)))
            = [lit "Prediction failed: " ++ exn_str e]
            /\ downloads (trace (snd (run w))) = [])).
Proof.
  intros Hu Hr Hs Hm Hp. rewrite (run_model_loaded w Hu Hr Hs Hm), Hp.
  destruct (prediction_cases w model d
              (preamble d ++ [St_button (lit "Predict AQI")]))
    as (features & Hd & [(e & _ & ->)
                        |[(values & e & _ & _ & ->)
                         |[(values & d' & e & _ & _ & _ & ->)
                          |(values & d' & csv & _ & _ & _ & _ & ->)]]]);
    (split; [reflexivity|]);
    (split; [exists features; split; [exact Hd | reflexivity]|]).
  - right. exists e. split; reflexivity.
  - right. exists e. split; reflexivity.
  - right. exists e. split; reflexivity.
  - left. exists csv. split; reflexivity.
Qed.

Lemma pressed_result_or_failure_witness :
  fst (run (Scenario.world (Some Scenario.aqi_csv) true
              (Ok (Scenario.constant [VInt 1]))))
  = Done tt
  /\ (exists features,
        drop [lit "AQI"] true Scenario.aqi_table = Ok features
        /\ predict_calls
             (trace (snd (run (Scenario.world (Some Scenario.aqi_csv) true
                                 (Ok (Scenario.constant [VInt 1]))))))
           = [features])
  /\ ((exists csv,
         downloads
           (trace (snd (run (Scenario.world (Some Scenario.aqi_csv) true
                               (Ok (Scenario.constant [VInt 1]))))))
         = [csv]
         /\ error_messages
              (trace (snd (run (Scenario.world (Some Scenario.aqi_csv) true
                                  (Ok (Scenario.constant [VInt 1]))))))
            = [])
      \/ (exists e,
            error_messages
              (trace (snd (run (Scenario.world (Some Scenario.aqi_csv) true
                                  (Ok (Scenario.constant [VInt 1]))))))
            = [lit "Prediction failed: " ++ exn_str e]
            /\ downloads
                 (trace (snd (run (Scenario.world (Some Scenario.aqi_csv) true
                                     (Ok (Scenario.constant [VInt 1]))))))
               = [])).
Proof.
  apply (pressed_result_or_failure
           (Scenario.world (Some Scenario.aqi_csv) true
              (Ok (Scenario.constant [VInt 1])))
           Scenario.aqi_csv Scenario.aqi_table (Scenario.constant [VInt 1]));
    reflexivity.
Defined.

Lemma is_FileNotFoundError_cls (e : exn) :
  is_FileNotFoundError e = true <-> exn_cls e = FileNotFoundError.
Proof.
  unfold is_FileNotFoundError. destruct (exn_cls e); split;
    intros H; try reflexivity; discriminate H.
Qed.

(** X4. How a run can end.  It ends by [st.stop()] only when the upload was
    read, its preview shown, and [joblib.load] raised [FileNotFoundError].
    It ends with an uncaught exception only when that exception was raised
    by [pd.read_csv], by [st.write(data.head())], or by [joblib.load] and
    is no [FileNotFoundError]: never by the prediction.  Otherwise it ends
    normally: there was no upload, or the upload was read and shown and the
    model was loaded. *)
Theorem run_outcome (w : World) :
  match fst (run w) with
  | Done _ =>
      uploaded w = None
      \/ exists b d model,
           uploaded w = Some b /\ read_csv b = Ok d
           /\ display w (head 5 d) = Ok tt
           /\ artifact w MODEL_PATH = Ok model
  | Stopped =>
      exists b d e,
        uploaded w = Some b /\ read_csv b = Ok d
        /\ display w (head 5 d) = Ok tt
        /\ artifact w MODEL_PATH = Err e
        /\ exn_cls e = FileNotFoundError
  | Raised e =>
      (exists b, uploaded w = Some b /\ read_csv b = Err e)
      \/ (exists b d,
            uploaded w = Some b /\ read_csv b = Ok d
            /\ display w (head 5 d) = Err e)
      \/ exists b d,
           uploaded w = Some b /\ read_csv b = Ok d
           /\ display w (head 5 d) = Ok tt
           /\ artifact w MODEL_PATH = Err e
           /\ exn_cls e <> FileNotFoundError
  end.
Proof.
  destruct (run_shapes w)
    as [[Hu ->]
       |[(b & e & Hu & Hr & ->)
        |[(b & d & e & Hu & Hr & Hs & ->)
         |[(b & d & e & Hu & Hr & Hs & Hm & [[He ->]|[He ->]])
          |(b & d & model & Hu & Hr & Hs & Hm & [[Hp ->]|[Hp ->]])]]]];
    cbn [fst].
  - left. exact Hu.
  - left. exists b. auto.
  - right. left. exists b, d. auto.
  - exists b, d, e. repeat split; auto.
    apply is_FileNotFoundError_cls. exact He.
  - right. right. exists b, d. repeat split; auto.
    intros Hc. apply is_FileNotFoundError_cls in Hc. congruence.
  - right. exists b, d, model. auto.
  - destruct (prediction_uniform w model d) as (d' & evs & H).
    rewrite H. cbn [fst]. right. exists b, d, model. auto.
Qed.

Lemma setitem_mismatch (key : str) (values : list Cell) (d : DataFrame) :
  0 < index d ->
  length values <> index d ->
  setitem key values d
  = Err (mkExn ValueError
           (lit "Length of values (" ++ str_of_nat (length values)
            ++ lit ") does not match length of index ("
            ++ str_of_nat (index d) ++ lit ")")).
Proof.
  intros Hpos Hne. unfold setitem.
  rewrite (@ensure_valid_index_id values d (or_introl Hpos)).
  destruct (Nat.eqb_spec (length values) (index d)); [contradiction|].
  reflexivity.
Qed.

(** X5. When the table has a row and the model answers with a number of
    values other than the number of rows, the assignment raises and the
    script reports it: the run ends normally with the message "Prediction
    failed: Length of values (k) does not match length of index (n)", [data]
    holds the table as read, and no result and no download is shown.  (A
    run in which the button is pressed is one in which the preview was
    shown.) *)
Theorem wrong_length_reported (w : World) (b : bytes) (d features : DataFrame)
  (model : Predictor) (values : list Cell) :
  uploaded w = Some b ->
  read_csv b = Ok d ->
  display w (head 5 d) = Ok tt ->
  artifact w MODEL_PATH = Ok model ->
  pressed w = true ->
  drop [lit "AQI"] true d = Ok features ->
  predict model features = Ok values ->
  0 < index d ->
  length values <> index d ->
  run w = (Done tt,
           mkStore (Some d)
             (preamble d ++
              [St_button (lit "Predict AQI"); Model_predict features;
               St_error (lit "Prediction failed: "
                         ++ lit "Length of values ("
                         ++ str_of_nat (length values)
                         ++ lit ") does not match length of index ("
                         ++ str_of_nat (index d) ++ lit ")")])).
Proof.
  intros Hu Hr Hs Hm Hp Hd Hpred Hpos Hne.
  rewrite (run_model_loaded w Hu Hr Hs Hm), Hp.
  rewrite (@prediction_setitem_raises w model d features _ Hd values _ Hpred
             (setitem_mismatch PREDICTED values d Hpos Hne)).
  rewrite <- app_assoc. reflexivity.
Qed.

Lemma wrong_length_reported_witness :
  run (Scenario.world (Some Scenario.aqi_csv) true
         (Ok (Scenario.constant [VInt 1])))
  = (Done tt,
     mkStore (Some Scenario.aqi_table)
       (preamble Scenario.aqi_table ++
        [St_button (lit "Predict AQI");
         Model_predict
           (mkDF 2 [(lit "PM2.5", [VInt 30; VInt 50]);
                    (lit "PM10", [VInt 40; VInt 60])]);
         St_error (lit "Prediction failed: "
                   ++ lit "Length of values ("
                   ++ str_of_nat (length [VInt 1])
                   ++ lit ") does not match length of index ("
                   ++ str_of_nat (index Scenario.aqi_table) ++ lit ")")])).
Proof.
  apply (wrong_length_reported
           (Scenario.world (Some Scenario.aqi_csv) true
              (Ok (Scenario.constant [VInt 1])))
           Scenario.aqi_csv Scenario.aqi_table
           (mkDF 2 [(lit "PM2.5", [VInt 30; VInt 50]);
                    (lit "PM10", [VInt 40; VInt 60])])
           (Scenario.constant [VInt 1]) [VInt 1]);
    try reflexivity.
  - repeat constructor.
  - discriminate.
Defined.

(** ** Row alignment *)

Lemma ensure_valid_index_aligned (values : list Cell) (d : DataFrame) :
  aligned d -> aligned (ensure_valid_index values d).
Proof.
  intros H. unfold ensure_valid_index.
  destruct (Nat.eqb (index d) 0 && Nat.ltb 0 (length values))%bool; [|exact H].
  unfold aligned. simpl. apply Forall_forall. intros c Hc.
  apply in_map_iff in Hc as (c0 & <- & _). simpl. apply repeat_length.
Qed.

Lemma setitem_aligned (key : str) (values : list Cell) (d d' : DataFrame) :
  aligned d -> setitem key values d = Ok d' -> aligned d'.
Proof.
  intros Hal Hs. apply setitem_Ok in Hs as [-> Hidx].
  pose proof (ensure_valid_index_aligned values d Hal) as Hal'.
  unfold aligned in *. simpl. apply Forall_forall. intros c Hc.
  apply set_column_In in Hc as [Hc| ->]; [|reflexivity].
  rewrite Forall_forall in Hal'. rewrite (Hal' c Hc). exact Hidx.
Qed.

Lemma head_aligned (n : nat) (d : DataFrame) :
  aligned d -> aligned (head n d).
Proof.
  unfold aligned, head. simpl. intros H. apply Forall_forall. intros c Hc.
  apply in_map_iff in Hc as (c0 & <- & Hc0). simpl.
  rewrite length_firstn. rewrite Forall_forall in H. rewrite (H c0 Hc0).
  reflexivity.
Qed.

Lemma drop_aligned (labels : list str) (ignore : bool) (d f : DataFrame) :
  aligned d -> drop labels ignore d = Ok f -> aligned f.
Proof.
  unfold drop. intros Hal.
  destruct (ignore || forallb (fun l => has_column l d) labels)%bool;
    [|discriminate].
  intros [= <-]. unfold aligned in *. simpl. apply Forall_forall.
  intros c Hc. apply filter_In in Hc as [Hc _].
  rewrite Forall_forall in Hal. auto.
Qed.

Ltac trace_members H :=
  unfold preamble, preview, page_head, failure_message, download_event in H;
  simpl in H;
  repeat match type of H with
         | _ \/ _ => destruct H as [H|H]
         | False => destruct H
         | ?x = ?y => first [discriminate H | subst x | subst y]
         end.

(** X6. Row alignment is kept throughout: in every run, whatever the bytes
    uploaded and whatever the model answers, every column of the table in
    [data], of every table shown with [st.write] and of every table passed
    to the model has exactly one cell per row of that table. *)
Theorem run_tables_aligned (w : World) :
  (forall d, data (snd (run w)) = Some d -> aligned d)
  /\ (forall f, In f (written (trace (snd (run w)))) -> aligned f)
  /\ (forall f, In f (predict_calls (trace (snd (run w)))) -> aligned f).
Proof.
  destruct (run_shapes w)
    as [[_ ->]
       |[(b & e & _ & _ & ->)
        |[(b & d & e & _ & Hr & _ & ->)
         |[(b & d & e & _ & Hr & _ & _ & [[_ ->]|[_ ->]])
          |(b & d & model & _ & Hr & _ & _ & [[_ ->]|[_ ->]])]]]];
    try pose proof (read_csv_aligned b d Hr) as Hal;
    try pose proof (head_aligned 5 d Hal) as Hhead.
  - repeat split; simpl; intros; try discriminate; tauto.
  - repeat split; simpl; intros; try discriminate; tauto.
  - repeat split; simpl.
    + intros d0 [= <-]. exact Hal.
    + intros f Hf. trace_members Hf. exact Hhead.
    + intros f Hf. trace_members Hf.
  - repeat split; simpl.
    + intros d0 [= <-]. exact Hal.
    + intros f Hf. trace_members Hf. exact Hhead.
    + intros f Hf. trace_members Hf.
  - repeat split; simpl.
    + intros d0 [= <-]. exact Hal.
    + intros f Hf. trace_members Hf. exact Hhead.
    + intros f Hf. trace_members Hf.
  - repeat split; simpl.
    + intros d0 [= <-]. exact Hal.
    + intros f Hf. trace_members Hf. exact Hhead.
    + intros f Hf. trace_members Hf.
  - destruct (prediction_cases w model d
                (preamble d ++ [St_button (lit "Predict AQI")]))
      as (features & Hd & [(e & _ & ->)
                          |[(values & e & _ & _ & ->)
                           |[(values & d' & e & _ & Hs & _ & ->)
                            |(values & d' & csv & _ & Hs & _ & _ & ->)]]]);
      pose proof (drop_aligned _ _ d features Hal Hd) as Hfeat;
      try pose proof (setitem_aligned PREDICTED values d d' Hal Hs) as Hal';
      repeat split; simpl.
    all: try (intros d0 [= <-]; assumption).
    all: intros f Hf; trace_members Hf; assumption.
Qed.

(** ** The features passed to the model *)

Lemma find_filter {A : Type} (p q : A -> bool) (l : list A) :
  (forall x, p x = true -> q x = true) ->
  find p (filter q l) = find p l.
Proof.
  intros H. induction l as [|x l IH]; simpl; [reflexivity|].
  destruct (q x) eqn:Q; simpl.
  - destruct (p x); [reflexivity | exact IH].
  - destruct (p x) eqn:P; [|exact IH].
    rewrite (H x P) in Q. discriminate.
Qed.

Lemma drop_AQI_features (d f : DataFrame) :
  drop [lit "AQI"] true d = Ok f ->
  has_column (lit "AQI") f = false
  /\ index f = index d
  /\ forall n, n <> lit "AQI" -> column n f = column n d.
Proof.
  rewrite drop_AQI. intros [= <-]. simpl. split; [|split; [reflexivity|]].
  - unfold has_column, column_names. simpl.
    destruct (str_in (lit "AQI") (map fst (filter _ (columns d)))) eqn:E;
      [|reflexivity].
    apply str_in_In, in_map_iff in E as (c & Hc & Hin).
    apply filter_In in Hin as [_ Hin]. rewrite Hc, str_eqb_refl in Hin.
    discriminate.
  - intros n Hn. unfold column. simpl. f_equal. apply find_filter.
    intros c Hc. apply str_eqb_eq in Hc. apply negb_true_iff, str_eqb_neq.
    congruence.
Qed.

(** X7. In every run the model is called at most once, and only after the
    button was pressed on a readable upload.  The table it gets never has a
    column [AQI]; it has the rows of the upload and every other column of
    it unchanged, so a column [Predicted_AQI] that the user uploaded is
    passed to the model as a feature. *)
Theorem model_never_sees_AQI (w : World) (f : DataFrame) :
  In f (predict_calls (trace (snd (run w)))) ->
  pressed w = true
  /\ predict_calls (trace (snd (run w))) = [f]
  /\ has_column (lit "AQI") f = false
  /\ exists b d,
       uploaded w = Some b /\ read_csv b = Ok d
       /\ index f = index d
       /\ forall n, n <> lit "AQI" -> column n f = column n d.
Proof.
  destruct (run_shapes w)
    as [[_ ->]
       |[(b & e & _ & _ & ->)
        |[(b & d & e & _ & Hr & _ & ->)
         |[(b & d & e & _ & Hr & _ & _ & [[_ ->]|[_ ->]])
          |(b & d & model & Hu & Hr & _ & _ & [[_ ->]|[Hp ->]])]]]];
    intros Hf; try (trace_members Hf; fail).
  destruct (prediction_cases w model d
              (preamble d ++ [St_button (lit "Predict AQI")]))
    as (features & Hd & [(e & _ & Hrun)
                        |[(values & e & _ & _ & Hrun)
                         |[(values & d' & e & _ & _ & _ & Hrun)
                          |(values & d' & csv & _ & _ & _ & _ & Hrun)]]]);
    rewrite Hrun in *; trace_members Hf;
    destruct (drop_AQI_features d f Hd) as (H1 & H2 & H3);
    (split; [exact Hp|]); (split; [reflexivity|]); (split; [exact H1|]);
    exists b, d; auto.
Qed.

Lemma model_never_sees_AQI_witness :
  pressed (Scenario.world (Some Scenario.with_predicted_csv) true
             (Ok (Scenario.constant [VInt 7; VInt 8]))) = true
  /\ predict_calls
       (trace (snd (run (Scenario.world (Some Scenario.with_predicted_csv) true
                           (Ok (Scenario.constant [VInt 7; VInt 8]))))))
     = [Scenario.with_predicted]
  /\ has_column (lit "AQI") Scenario.with_predicted = false
  /\ exists b d,
       uploaded (Scenario.world (Some Scenario.with_predicted_csv) true
                   (Ok (Scenario.constant [VInt 7; VInt 8]))) = Some b
       /\ read_csv b = Ok d
       /\ index Scenario.with_predicted = index d
       /\ forall n, n <> lit "AQI" ->
                    column n Scenario.with_predicted = column n d.
Proof.
  apply (model_never_sees_AQI
           (Scenario.world (Some Scenario.with_predicted_csv) true
              (Ok (Scenario.constant [VInt 7; VInt 8])))
           Scenario.with_predicted).
  vm_compute. left. reflexivity.
Defined.

(** ** The preview *)

Lemma firstn_seq (n start len : nat) :
  firstn n (seq start len) = seq start (Nat.min n len).
Proof.
  revert start len. induction n as [|n IH]; intros start [|len]; simpl;
    try reflexivity.
  rewrite IH. reflexivity.
Qed.

Lemma rows_head (n : nat) (d : DataFrame) :
  rows (head n d) = firstn n (rows d).
Proof.
  unfold rows. rewrite firstn_map, firstn_seq. simpl index.
  apply map_ext_in. intros i Hi. apply in_seq in Hi.
  unfold row, head. simpl. rewrite map_map. apply map_ext. intros c. simpl.
  rewrite nth_firstn.
  destruct (Nat.ltb_spec i n); [reflexivity | lia].
Qed.

Lemma written_app (a b : list Event) :
  written (a ++ b) = written a ++ written b.
Proof. apply flat_map_app. Qed.

(** X8. Whenever the upload is read, the run calls [st.write] for a
    preview before it looks for the model file, whatever becomes of that
    call and of the model: the first table passed to [st.write] has the
    column labels of the table read, in order, and its rows are the first
    five rows of that table (all of them when it has fewer). *)
Theorem preview_first_rows (w : World) (b : bytes) (d : DataFrame) :
  uploaded w = Some b ->
  read_csv b = Ok d ->
  hd_error (written (trace (snd (run w)))) = Some (head 5 d)
  /\ column_names (head 5 d) = column_names d
  /\ index (head 5 d) = Nat.min 5 (index d)
  /\ rows (head 5 d) = firstn 5 (rows d).
Proof.
  intros Hu Hr.
  assert (hd_error (written (trace (snd (run w)))) = Some (head 5 d)) as H.
  { destruct (display w (head 5 d)) as [[]|e] eqn:Hs.
    - destruct (artifact w MODEL_PATH) as [model|e] eqn:Hm.
      + rewrite (run_model_loaded w Hu Hr Hs Hm).
        destruct (pressed w); [|reflexivity].
        destruct (prediction_uniform w model d) as (d' & evs & ->).
        cbn [snd trace]. rewrite written_app. reflexivity.
      + destruct (is_FileNotFoundError e) eqn:He.
        * rewrite (run_model_not_found w Hu Hr Hs Hm He). reflexivity.
        * rewrite (run_model_load_raises w Hu Hr Hs Hm He). reflexivity.
    - rewrite (run_preview_raises w Hu Hr Hs). reflexivity. }
  split; [exact H|]. split; [|split; [reflexivity | apply rows_head]].
  unfold column_names, head. simpl. rewrite map_map. reflexivity.
Qed.

Lemma preview_first_rows_witness :
  hd_error
    (written
       (trace (snd (run (Scenario.world (Some Scenario.aqi_csv) false
                           (Err Scenario.no_such_file))))))
  = Some (head 5 Scenario.aqi_table)
  /\ column_names (head 5 Scenario.aqi_table)
     = column_names Scenario.aqi_table
  /\ index (head 5 Scenario.aqi_table)
     = Nat.min 5 (index Scenario.aqi_table)
  /\ rows (head 5 Scenario.aqi_table) = firstn 5 (rows Scenario.aqi_table).
Proof.
  apply (preview_first_rows
           (Scenario.world (Some Scenario.aqi_csv) false
              (Err Scenario.no_such_file))
           Scenario.aqi_csv Scenario.aqi_table); reflexivity.
Defined.

(** ** The download *)

(** X9. A download is offered only by a run that ends normally and shows
    no failure message, at most once per run.  Its bytes are the UTF-8
    encoding of the CSV text of exactly the table that [data] holds at the
    end and that was shown with [st.write]; that table has a column
    [Predicted_AQI] with one value per row. *)
Theorem download_is_shown_table (w : World) (csv : bytes) :
  In csv (downloads (trace (snd (run w)))) ->
  fst (run w) = Done tt
  /\ downloads (trace (snd (run w))) = [csv]
  /\ error_messages (trace (snd (run w))) = []
  /\ exists d' values,
       data (snd (run w)) = Some d'
       /\ In d' (written (trace (snd (run w))))
       /\ export_csv d' = Ok csv
       /\ decode_utf8 csv = Some (to_csv false d')
       /\ column PREDICTED d' = Some values
       /\ length values = index d'.
Proof.
  destruct (run_shapes w)
    as [[_ ->]
       |[(b & e & _ & _ & ->)
        |[(b & d & e & _ & Hr & _ & ->)
         |[(b & d & e & _ & Hr & _ & _ & [[_ ->]|[_ ->]])
          |(b & d & model & Hu & Hr & _ & _ & [[_ ->]|[Hp ->]])]]]];
    intros Hf; try (trace_members Hf; fail).
  destruct (prediction_cases w model d
              (preamble d ++ [St_button (lit "Predict AQI")]))
    as (features & Hd & [(e & _ & Hrun)
                        |[(values & e & _ & _ & Hrun)
                         |[(values & d' & e & _ & _ & _ & Hrun)
                          |(values & d' & csv' & _ & Hs & _ & He & Hrun)]]]);
    rewrite Hrun in *; trace_members Hf.
  repeat split. exists d', values. repeat split.
  - simpl. tauto.
  - exact He.
  - apply export_csv_Ok. exact He.
  - apply setitem_Ok in Hs as [-> _]. unfold column. simpl.
    rewrite set_column_find. reflexivity.
  - apply setitem_Ok in Hs as [-> _]. reflexivity.
Qed.

Lemma download_is_shown_table_witness :
  fst (run (Scenario.world (Some Scenario.aqi_csv) true (Ok Scenario.pm_sum)))
  = Done tt
  /\ downloads
       (trace (snd (run (Scenario.world (Some Scenario.aqi_csv) true
                           (Ok Scenario.pm_sum)))))
     = [hd [] (downloads
                 (trace (snd (run (Scenario.world (Some Scenario.aqi_csv) true
                                     (Ok Scenario.pm_sum))))))]
  /\ error_messages
       (trace (snd (run (Scenario.world (Some Scenario.aqi_csv) true
                           (Ok Scenario.pm_sum))))) = []
  /\ exists d' values,
       data (snd (run (Scenario.world (Some Scenario.aqi_csv) true
                         (Ok Scenario.pm_sum)))) = Some d'
       /\ In d' (written
                   (trace (snd (run (Scenario.world (Some Scenario.aqi_csv) true
                                       (Ok Scenario.pm_sum))))))
       /\ export_csv d'
          = Ok (hd [] (downloads
                         (trace (snd (run (Scenario.world
                                             (Some Scenario.aqi_csv) true
                                             (Ok Scenario.pm_sum)))))))
       /\ decode_utf8
            (hd [] (downloads
                      (trace (snd (run (Scenario.world (Some Scenario.aqi_csv)
                                          true (Ok Scenario.pm_sum)))))))
          = Some (to_csv false d')
       /\ column PREDICTED d' = Some values
       /\ length values = index d'.
Proof.
  apply (download_is_shown_table
           (Scenario.world (Some Scenario.aqi_csv) true (Ok Scenario.pm_sum))
           (hd [] (downloads
                     (trace (snd (run (Scenario.world (Some Scenario.aqi_csv)
                                         true (Ok Scenario.pm_sum)))))))).
  vm_compute. left. reflexivity.
Defined.

(** ** An upload without a header *)

Lemma decode_ascii (b : bytes) :
  forallb (fun c => N.ltb c 128) b = true -> decode_utf8 b = Some b.
Proof.
  induction b as [|c b IH]; [reflexivity|].
  cbn [forallb decode_utf8]. intros H. apply andb_true_iff in H as [-> H].
  rewrite (IH H). reflexivity.
Qed.

Lemma blank_chars (l : str) (c : N) :
  is_blank l = true -> In c l -> c = 32%N \/ c = 9%N.
Proof.
  unfold is_blank. intros H Hc. rewrite forallb_forall in H.
  specialize (H c Hc). apply orb_true_iff in H as [H|H];
    apply N.eqb_eq in H; auto.
Qed.

(** X10. An upload that is empty, or that has only lines of spaces and
    tabs, has no header: [pd.read_csv] raises [EmptyDataError] ("No columns
    to parse from file"), and the run ends with that exception uncaught,
    right after the upload widget. *)
Theorem blank_upload_raises (w : World) (lines : list str) :
  Forall (fun l => is_blank l = true) lines ->
  uploaded w = Some (flat_map (fun l => l ++ [LF]) lines) ->
  read_csv (flat_map (fun l => l ++ [LF]) lines)
  = Err (mkExn EmptyDataError (lit "No columns to parse from file"))
  /\ run w
     = (Raised (mkExn EmptyDataError (lit "No columns to parse from file")),
        mkStore None page_head).
Proof.
  intros Hblank Hu.
  assert (read_csv (flat_map (fun l => l ++ [LF]) lines)
          = Err (mkExn EmptyDataError (lit "No columns to parse from file")))
    as Hr.
  { unfold read_csv. rewrite decode_ascii.
    - assert (skip_bom (flat_map (fun l => l ++ [LF]) lines)
              = flat_map (fun l => l ++ [LF]) lines) as ->.
      { destruct lines as [|[|c l] ls]; try reflexivity.
        inversion Hblank as [|? ? Hl _]; subst.
        destruct (blank_chars (c :: l) c Hl (or_introl eq_refl)) as [-> | ->];
          reflexivity. }
      unfold tokenize. rewrite (tok_blank_lines lines [] Hblank). reflexivity.
    - apply forallb_forall. intros c Hc.
      apply in_flat_map in Hc as (l & Hl & Hc).
      rewrite Forall_forall in Hblank.
      apply in_app_or in Hc as [Hc|[<-|[]]]; [|reflexivity].
      destruct (blank_chars l c (Hblank l Hl) Hc) as [-> | ->]; reflexivity. }
  split; [exact Hr|]. apply (run_read_raises w Hu Hr).
Qed.

Lemma blank_upload_raises_witness :
  read_csv (flat_map (fun l => l ++ [LF]) [[32; 9]%N; []])
  = Err (mkExn EmptyDataError (lit "No columns to parse from file"))
  /\ run (Scenario.world (Some (flat_map (fun l => l ++ [LF]) [[32; 9]%N; []]))
            true (Ok Scenario.pm_sum))
     = (Raised (mkExn EmptyDataError (lit "No columns to parse from file")),
        mkStore None page_head).
Proof.
  apply (blank_upload_raises
           (Scenario.world (Some (flat_map (fun l => l ++ [LF]) [[32; 9]%N; []]))
              true (Ok Scenario.pm_sum))
           [[32; 9]%N; []]).
  - repeat constructor.
  - reflexivity.
Defined.

(** ** UTF-8: encoding what was decoded *)

Ltac split_tests H :=
  repeat match type of H with
         | (if ?t then _ else _) = Some _ =>
             let E := fresh "E" in destruct t eqn:E; [|discriminate H]
         | (if ?t then _ else _) = Some _ =>
             let E := fresh "E" in destruct t eqn:E; [discriminate H|]
         end.

Ltac bool_facts :=
  repeat match goal with
         | H : (_ && _)%bool = true |- _ => apply andb_true_iff in H; destruct H
         | H : (_ && _)%bool = false |- _ =>
             apply andb_false_iff in H; destruct H
         | H : negb _ = true |- _ => apply negb_true_iff in H
         | H : N.ltb _ _ = true |- _ => apply N.ltb_lt in H
         | H : N.ltb _ _ = false |- _ => apply N.ltb_ge in H
         | H : N.leb _ _ = true |- _ => apply N.leb_le in H
         | H : N.leb _ _ = false |- _ => apply N.leb_gt in H
         end.

Lemma option_map_cons_Some (c : N) (o : option str) (s : str) :
  option_map (cons c) o = Some s -> exists s', o = Some s' /\ s = c :: s'.
Proof. destruct o as [s'|]; simpl; [|discriminate]. intros [= <-]. eauto. Qed.

Lemma encode_decode_len (n : nat) :
  forall (b : bytes) (s : str),
    length b <= n -> decode_utf8 b = Some s -> encode_utf8 s = Some b.
Proof.
  induction n as [|n IH]; intros b s Hlen.
  - destruct b; [|simpl in Hlen; lia]. simpl. intros [= <-]. reflexivity.
  - destruct b as [|b1 r1]; [simpl; intros [= <-]; reflexivity|].
    cbn [decode_utf8].
    destruct (N.ltb b1 128) eqn:T1.
    { intros H. apply option_map_cons_Some in H as (s' & Hs' & ->).
      simpl in Hlen. cbn [encode_utf8]. rewrite (IH r1 s') by (auto; lia).
      unfold encode_cp. rewrite T1. reflexivity. }
    destruct (N.ltb b1 194) eqn:T2; [discriminate|].
    destruct (N.ltb b1 224) eqn:T3.
    { destruct r1 as [|b2 r2]; [discriminate|].
      unfold is_cont. intros H. split_tests H.
      apply option_map_cons_Some in H as (s' & Hs' & ->).
      simpl in Hlen. cbn [encode_utf8]. rewrite (IH r2 s') by (auto; lia).
      bool_facts. unfold encode_cp. decide_tests.
      cbn [List.app]. do 2 f_equal; [lia|]. f_equal. lia. }
    destruct (N.ltb b1 240) eqn:T4.
    { destruct r1 as [|b2 [|b3 r3]]; try discriminate.
      cbv zeta. unfold is_cont, is_surrogate. intros H. split_tests H.
      apply option_map_cons_Some in H as (s' & Hs' & ->).
      simpl in Hlen. cbn [encode_utf8]. rewrite (IH r3 s') by (auto; lia).
      bool_facts; unfold encode_cp, is_surrogate; decide_tests;
        cbn [List.app]; repeat f_equal; lia. }
    destruct (N.ltb b1 245) eqn:T5; [|discriminate].
    destruct r1 as [|b2 [|b3 [|b4 r4]]]; try discriminate.
    cbv zeta. unfold is_cont. intros H. split_tests H.
    apply option_map_cons_Some in H as (s' & Hs' & ->).
    simpl in Hlen. cbn [encode_utf8]. rewrite (IH r4 s') by (auto; lia).
    bool_facts. unfold encode_cp. decide_tests.
    cbn [List.app]. repeat f_equal; lia.
Qed.

Lemma encode_decode (b : bytes) (s : str) :
  decode_utf8 b = Some s -> encode_utf8 s = Some b.
Proof. apply (encode_decode_len (length b)). apply le_n. Qed.

Lemma encode_cp_Some (c : N) (bs : bytes) :
  encode_cp c = Some bs ->
  scalar c = true /\ Forall (fun x => (x < 256)%N) bs.
Proof.
  unfold encode_cp, scalar, is_surrogate.
  destruct (N.ltb_spec c 128).
  { intros E. apply Some_eq in E. subst bs. split.
    - decide_tests. reflexivity.
    - repeat constructor. lia. }
  destruct (N.ltb_spec c 2048).
  { intros E. apply Some_eq in E. subst bs. split.
    - decide_tests. reflexivity.
    - repeat constructor; lia. }
  destruct (N.ltb_spec c 65536).
  { destruct (N.leb_spec 55296 c); [destruct (N.leb_spec c 57343)|];
      cbn [andb negb]; try discriminate;
      intros E; apply Some_eq in E; subst bs; (split;
        [decide_tests; reflexivity | repeat constructor; lia]). }
  destruct (N.ltb_spec c 1114112); [|discriminate].
  intros E. apply Some_eq in E. subst bs. split.
  - decide_tests. reflexivity.
  - repeat constructor; lia.
Qed.

Lemma encode_utf8_Some (s : str) (b : bytes) :
  encode_utf8 s = Some b ->
  forallb scalar s = true /\ Forall (fun x => (x < 256)%N) b.
Proof.
  revert b. induction s as [|c s IH]; simpl; intros b.
  - intros [= <-]. split; [reflexivity | constructor].
  - destruct (encode_cp c) as [bs|] eqn:Ec; [|discriminate].
    destruct (encode_utf8 s) as [r|] eqn:Es; [|discriminate].
    intros [= <-]. destruct (encode_cp_Some c bs Ec) as [H1 H2].
    destruct (IH r eq_refl) as [H3 H4]. split.
    + rewrite H1, H3. reflexivity.
    + apply Forall_app. auto.
Qed.

(** X11. The UTF-8 codec of the script's input and output.  Encoding a text
    gives bytes exactly when strict decoding of those bytes gives the text
    back, so the decoder accepts the encodings and nothing else (no overlong
    form, no encoded surrogate); a text can be encoded exactly when it holds
    Unicode scalar values only; and what is encoded is made of values below
    256. *)
Theorem utf8_codec (s : str) (b : bytes) :
  (encode_utf8 s = Some b <-> decode_utf8 b = Some s)
  /\ ((exists b', encode_utf8 s = Some b') <-> forallb scalar s = true)
  /\ (encode_utf8 s = Some b -> Forall (fun x => (x < 256)%N) b).
Proof.
  split; [split; [apply decode_encode | apply encode_decode]|].
  split; [split|].
  - intros [b' H]. apply (encode_utf8_Some s b' H).
  - apply encode_scalar.
  - intros H. apply (encode_utf8_Some s b H).
Qed.

(** ** Predictions that cannot fail *)

Lemma decode_scalar (b : bytes) (text : str) :
  decode_utf8 b = Some text -> forallb scalar text = true.
Proof.
  intros H. apply encode_decode in H. apply (encode_utf8_Some text b H).
Qed.

Lemma scalar_sub (text f : str) :
  forallb scalar text = true -> (forall c, In c f -> In c text) ->
  forallb scalar f = true.
Proof.
  intros Ht Hsub. apply forallb_forall. intros c Hc.
  rewrite forallb_forall in Ht. auto.
Qed.

Lemma infer_column_cells (fields : list str) (v : Cell) :
  In v (infer_column fields) ->
  is_int v = true \/ v = VNaN \/ exists f, In f fields /\ v = VStr f.
Proof.
  unfold infer_column. destruct (int_literals fields) as [zs|].
  - intros H. apply in_map_iff in H as (z & <- & _). left. reflexivity.
  - intros H. apply in_map_iff in H as (f & <- & Hf).
    destruct (is_na f); [right; left; reflexivity|].
    right. right. exists f. auto.
Qed.

(** Whatever [read_csv] reads, its labels and text cells are made of Unicode
    scalar values. *)
Lemma read_csv_encodable (b : bytes) (d : DataFrame) :
  read_csv b = Ok d -> encodable d = true.
Proof.
  intros H.
  destruct (read_csv_Ok b d H) as (text & names & recs & k & Hdec & Htok & ->).
  pose proof (decode_scalar b text Hdec) as Ht.
  assert (forall r f, In r (names :: recs) -> In f r ->
                      forallb scalar f = true) as Hsub.
  { intros r f Hr Hf. apply (scalar_sub text _ Ht). intros c Hc.
    apply skip_bom_chars.
    apply (tokenize_chars true _ _ r f c Htok Hr Hf Hc). }
  assert (forall j r, In r (names :: recs) ->
                      forallb scalar (field j r) = true) as Hfield.
  { intros j r Hr. unfold field.
    destruct (@nth_in_or_default str j r []) as [Hin| ->]; [|reflexivity].
    apply (Hsub r _ Hr Hin). }
  unfold encodable. simpl. apply forallb_forall. intros c Hc.
  apply in_map_iff in Hc as (j & <- & _). simpl. apply andb_true_iff. split.
  - apply Hfield. left. reflexivity.
  - apply forallb_forall. intros v Hv.
    apply infer_column_cells in Hv as [Hv|[->|(f & Hf & ->)]];
      [destruct v; try discriminate; reflexivity | reflexivity |].
    simpl. apply in_map_iff in Hf as (r & <- & Hr).
    apply Hfield. right. exact Hr.
Qed.

Lemma setitem_same_length (key : str) (values : list Cell) (d : DataFrame) :
  length values = index d ->
  setitem key values d
  = Ok (mkDF (index d) (set_column key values (columns d))).
Proof.
  intros Hlen. unfold setitem.
  assert (ensure_valid_index values d = d) as ->.
  { unfold ensure_valid_index.
    destruct (Nat.eqb_spec (index d) 0) as [E|E]; [|reflexivity].
    destruct (Nat.ltb_spec 0 (length values)); [lia | reflexivity]. }
  rewrite Hlen, Nat.eqb_refl. reflexivity.
Qed.

Lemma set_column_encodable (d : DataFrame) (values : list Cell) :
  encodable d = true ->
  forallb is_int values = true ->
  encodable (mkDF (index d) (set_column PREDICTED values (columns d))) = true.
Proof.
  unfold encodable. simpl. intros Hd Hv. apply forallb_forall. intros c Hc.
  apply set_column_In in Hc as [Hc| ->].
  - rewrite forallb_forall in Hd. auto.
  - apply andb_true_iff. split; [reflexivity|].
    apply (forallb_impl is_int); [|exact Hv].
    intros [z| |] H; simpl in *; congruence.
Qed.

(** X12. For every upload that [pd.read_csv] reads, when the model answers
    one integer per row and Streamlit can show the preview and the result
    table, the prediction cannot fail: the assignment and the export do not
    raise, the run ends normally without a failure message, the table in
    [data] has the rows of the upload and the answers in [Predicted_AQI],
    and that table is shown and offered for download. *)
Theorem integer_prediction_succeeds (w : World) (b : bytes)
  (d features : DataFrame) (model : Predictor) (values : list Cell) :
  uploaded w = Some b ->
  read_csv b = Ok d ->
  display w (head 5 d) = Ok tt ->
  display w (mkDF (index d) (set_column PREDICTED values (columns d))) = Ok tt ->
  artifact w MODEL_PATH = Ok model ->
  pressed w = true ->
  drop [lit "AQI"] true d = Ok features ->
  predict model features = Ok values ->
  forallb is_int values = true ->
  length values = index d ->
  exists csv,
    run w
    = (Done tt,
       mkStore (Some (mkDF (index d)
                        (set_column PREDICTED values (columns d))))
         (preamble d ++
          [St_button (lit "Predict AQI"); Model_predict features;
           St_subheader (lit "Prediction Results");
           St_write (mkDF (index d) (set_column PREDICTED values (columns d)));
           St_download_button (lit "Download Results as CSV") csv
             (lit "predicted_aqi.csv") (lit "text/csv")]))
    /\ error_messages (trace (snd (run w))) = []
    /\ decode_utf8 csv
       = Some (to_csv false
                 (mkDF (index d) (set_column PREDICTED values (columns d)))).
Proof.
  intros Hu Hr Hshow Hshow' Hm Hp Hd Hpred Hint Hlen.
  pose proof (setitem_same_length PREDICTED values d Hlen) as Hs.
  pose proof (set_column_encodable d values (read_csv_encodable b d Hr) Hint)
    as Henc.
  destruct (encode_scalar _ (scalar_to_csv _ Henc)) as [csv Hcsv].
  assert (export_csv (mkDF (index d) (set_column PREDICTED values (columns d)))
          = Ok csv) as He
    by (unfold export_csv, encode; rewrite Hcsv; reflexivity).
  exists csv.
  assert (run w
    = (Done tt,
       mkStore (Some (mkDF (index d)
                        (set_column PREDICTED values (columns d))))
         (preamble d ++
          [St_button (lit "Predict AQI"); Model_predict features;
           St_subheader (lit "Prediction Results");
           St_write (mkDF (index d) (set_column PREDICTED values (columns d)));
           St_download_button (lit "Download Results as CSV") csv
             (lit "predicted_aqi.csv") (lit "text/csv")]))) as E.
  { rewrite (run_model_loaded w Hu Hr Hshow Hm), Hp.
    rewrite (@prediction_succeeds w model d features _ Hd values _ csv
               Hpred Hs Hshow' He).
    rewrite <- app_assoc. reflexivity. }
  split; [exact E|]. split; [rewrite E; reflexivity|].
  apply export_csv_Ok. exact He.
Qed.

Lemma integer_prediction_succeeds_witness :
  exists csv,
    run (Scenario.world (Some Scenario.aqi_csv) true (Ok Scenario.pm_sum))
    = (Done tt,
       mkStore (Some (mkDF (index Scenario.aqi_table)
                        (set_column PREDICTED [VInt 70; VInt 110]
                           (columns Scenario.aqi_table))))
         (preamble Scenario.aqi_table ++
          [St_button (lit "Predict AQI");
           Model_predict
             (mkDF 2 [(lit "PM2.5", [VInt 30; VInt 50]);
                      (lit "PM10", [VInt 40; VInt 60])]);
           St_subheader (lit "Prediction Results");
           St_write (mkDF (index Scenario.aqi_table)
                       (set_column PREDICTED [VInt 70; VInt 110]
                          (columns Scenario.aqi_table)));
           St_download_button (lit "Download Results as CSV") csv
             (lit "predicted_aqi.csv") (lit "text/csv")]))
    /\ error_messages
         (trace (snd (run (Scenario.world (Some Scenario.aqi_csv) true
                             (Ok Scenario.pm_sum))))) = []
    /\ decode_utf8 csv
       = Some (to_csv false
                 (mkDF (index Scenario.aqi_table)
                    (set_column PREDICTED [VInt 70; VInt 110]
                       (columns Scenario.aqi_table)))).
Proof.
  apply (integer_prediction_succeeds
           (Scenario.world (Some Scenario.aqi_csv) true (Ok Scenario.pm_sum))
           Scenario.aqi_csv Scenario.aqi_table
           (mkDF 2 [(lit "PM2.5", [VInt 30; VInt 50]);
                    (lit "PM10", [VInt 40; VInt 60])])
           Scenario.pm_sum [VInt 70; VInt 110]); reflexivity.
Defined.

(** ** A table without rows *)

Lemma setitem_no_rows (key : str) (values : list Cell) (d : DataFrame) :
  index d = 0 ->
  values <> [] ->
  setitem key values d
  = Ok (mkDF (length values)
          (set_column key values
             (map (fun c => (fst c, repeat VNaN (length values))) (columns d)))).
Proof.
  intros H0 Hne. unfold setitem, ensure_valid_index. rewrite H0. simpl.
  destruct values as [|v values]; [congruence|]. simpl.
  rewrite Nat.eqb_refl. reflexivity.
Qed.

Lemma reindexed_encodable (k : nat) (d : DataFrame) :
  encodable d = true ->
  encodable (mkDF k (map (fun c => (fst c, repeat VNaN k)) (columns d))) = true.
Proof.
  unfold encodable. simpl. intros H. apply forallb_forall. intros c Hc.
  apply in_map_iff in Hc as (c0 & <- & Hc0).
  rewrite forallb_forall in H. specialize (H c0 Hc0).
  apply andb_true_iff in H as [H _]. apply andb_true_iff. split.
  - exact H.
  - apply forallb_forall. intros v Hv. apply repeat_spec in Hv. subst v.
    reflexivity.
Qed.

(** X13. An upload that has a header and no record is read as a table
    without rows.  When the model answers it with [k] integers, [k] at least
    one, the assignment does not raise; when Streamlit can show the preview
    and the table the assignment made, the run ends normally without a
    failure message and offers a download; the table in [data] then has [k]
    rows, the answers in [Predicted_AQI], and [k] missing values in every
    other column. *)
Theorem empty_table_takes_answer_length (w : World) (b : bytes)
  (d features : DataFrame) (model : Predictor) (values : list Cell) :
  uploaded w = Some b ->
  read_csv b = Ok d ->
  display w (head 5 d) = Ok tt ->
  display w (mkDF (length values)
               (set_column PREDICTED values
                  (map (fun c => (fst c, repeat VNaN (length values)))
                     (columns d)))) = Ok tt ->
  artifact w MODEL_PATH = Ok model ->
  pressed w = true ->
  drop [lit "AQI"] true d = Ok features ->
  predict model features = Ok values ->
  forallb is_int values = true ->
  index d = 0 ->
  values <> [] ->
  fst (run w) = Done tt
  /\ error_messages (trace (snd (run w))) = []
  /\ (exists csv, downloads (trace (snd (run w))) = [csv])
  /\ exists d',
       data (snd (run w)) = Some d'
       /\ index d' = length values
       /\ column PREDICTED d' = Some values
       /\ other_columns d'
          = map (fun c => (fst c, repeat VNaN (length values)))
              (other_columns d).
Proof.
  intros Hu Hr Hshow Hshow' Hm Hp Hd Hpred Hint H0 Hne.
  pose proof (setitem_no_rows PREDICTED values d H0 Hne) as Hs.
  pose proof (reindexed_encodable (length values) d
                (read_csv_encodable b d Hr)) as Henc0.
  pose proof (set_column_encodable _ values Henc0 Hint) as Henc.
  simpl in Henc.
  destruct (encode_scalar _ (scalar_to_csv _ Henc)) as [csv Hcsv].
  rewrite (run_model_loaded w Hu Hr Hshow Hm), Hp.
  rewrite (@prediction_succeeds w model d features _ Hd values _ csv Hpred Hs
             Hshow').
  - split; [reflexivity|]. split; [reflexivity|].
    split; [exists csv; reflexivity|].
    eexists. split; [reflexivity|]. split; [reflexivity|]. split.
    + unfold column. simpl. rewrite set_column_find. reflexivity.
    + unfold other_columns. simpl. rewrite set_column_others.
      apply (filter_map_fst (fun n => negb (str_eqb n PREDICTED))
               (fun c => (fst c, repeat VNaN (length values)))).
      reflexivity.
  - unfold export_csv, encode. rewrite Hcsv. reflexivity.
Qed.

Lemma empty_table_takes_answer_length_witness :
  fst (run (Scenario.world (Some Scenario.header_only_csv) true
              (Ok (Scenario.constant Scenario.three))))
  = Done tt
  /\ error_messages
       (trace (snd (run (Scenario.world (Some Scenario.header_only_csv) true
                           (Ok (Scenario.constant Scenario.three)))))) = []
  /\ (exists csv,
        downloads
          (trace (snd (run (Scenario.world (Some Scenario.header_only_csv) true
                              (Ok (Scenario.constant Scenario.three))))))
        = [csv])
  /\ exists d',
       data (snd (run (Scenario.world (Some Scenario.header_only_csv) true
                         (Ok (Scenario.constant Scenario.three))))) = Some d'
       /\ index d' = length Scenario.three
       /\ column PREDICTED d' = Some Scenario.three
       /\ other_columns d'
          = map (fun c => (fst c, repeat VNaN (length Scenario.three)))
              (other_columns Scenario.header_only).
Proof.
  apply (empty_table_takes_answer_length
           (Scenario.world (Some Scenario.header_only_csv) true
              (Ok (Scenario.constant Scenario.three)))
           Scenario.header_only_csv Scenario.header_only Scenario.header_only
           (Scenario.constant Scenario.three) Scenario.three);
    try reflexivity.
  discriminate.
Defined.

(** ** Tables that Streamlit cannot show *)

(** X14. When [st.write(data.head())] raises, the exception leaves the
    script uncaught: the call is outside every [try].  The run ends with it
    right after the call; the model file is not looked for (so a missing
    model is not reported), no message is shown with [st.error], the button
    is not drawn and the model is never called. *)
Theorem preview_failure_propagates (w : World) (b : bytes) (d : DataFrame)
  (e : exn) :
  uploaded w = Some b ->
  read_csv b = Ok d ->
  display w (head 5 d) = Err e ->
  run w = (Raised e, mkStore (Some d) (preview d))
  /\ ~ In (Joblib_load MODEL_PATH) (trace (snd (run w)))
  /\ error_messages (trace (snd (run w))) = []
  /\ predict_calls (trace (snd (run w))) = [].
Proof.
  intros Hu Hr Hs. rewrite (run_preview_raises w Hu Hr Hs). repeat split.
  simpl. intros H. trace_members H.
Qed.

Lemma preview_failure_propagates_witness :
  run (Scenario.strict_world (Some Scenario.big_csv) true
         (Err Scenario.no_such_file))
  = (Raised Scenario.conversion_error,
     mkStore (Some Scenario.big_table) (preview Scenario.big_table))
  /\ ~ In (Joblib_load MODEL_PATH)
         (trace (snd (run (Scenario.strict_world (Some Scenario.big_csv) true
                             (Err Scenario.no_such_file)))))
  /\ error_messages
       (trace (snd (run (Scenario.strict_world (Some Scenario.big_csv) true
                           (Err Scenario.no_such_file))))) = []
  /\ predict_calls
       (trace (snd (run (Scenario.strict_world (Some Scenario.big_csv) true
                           (Err Scenario.no_such_file))))) = [].
Proof.
  apply (preview_failure_propagates
           (Scenario.strict_world (Some Scenario.big_csv) true
              (Err Scenario.no_such_file))
           Scenario.big_csv Scenario.big_table Scenario.conversion_error);
    vm_compute; reflexivity.
Defined.

(** X15. When the model has answered and the column was assigned, and
    [st.write(data)] then raises, the script reports it as a failed
    prediction: the run ends normally with the message "Prediction failed:
    " followed by [str(e)] and without a download, while [data] already
    holds the table with the predictions in [Predicted_AQI]. *)
Theorem display_failure_reported (w : World) (b : bytes)
  (d features d' : DataFrame) (model : Predictor) (values : list Cell)
  (e : exn) :
  uploaded w = Some b ->
  read_csv b = Ok d ->
  display w (head 5 d) = Ok tt ->
  artifact w MODEL_PATH = Ok model ->
  pressed w = true ->
  drop [lit "AQI"] true d = Ok features ->
  predict model features = Ok values ->
  setitem PREDICTED values d = Ok d' ->
  display w d' = Err e ->
  run w = (Done tt,
           mkStore (Some d')
             (preamble d ++
              [St_button (lit "Predict AQI"); Model_predict features;
               St_subheader (lit "Prediction Results"); St_write d';
               St_error (lit "Prediction failed: " ++ exn_str e)]))
  /\ downloads (trace (snd (run w))) = []
  /\ column PREDICTED d' = Some values.
Proof.
  intros Hu Hr Hs Hm Hp Hd Hpred Hset Hw.
  assert (run w = (Done tt,
           mkStore (Some d')
             (preamble d ++
              [St_button (lit "Predict AQI"); Model_predict features;
               St_subheader (lit "Prediction Results"); St_write d';
               St_error (lit "Prediction failed: " ++ exn_str e)]))) as E.
  { rewrite (run_model_loaded w Hu Hr Hs Hm), Hp.
    rewrite (@prediction_display_raises w model d features _ Hd values d' e
               Hpred Hset Hw).
    rewrite <- app_assoc. reflexivity. }
  split; [exact E|]. split; [rewrite E; reflexivity|].
  apply setitem_Ok in Hset as [-> _]. unfold column. simpl.
  rewrite set_column_find. reflexivity.
Qed.

Lemma display_failure_reported_witness :
  run (Scenario.strict_world (Some Scenario.no_aqi_csv) true
         (Ok (Scenario.constant Scenario.big_values)))
  = (Done tt,
     mkStore (Some (mkDF 2 [(lit "PM2.5", [VInt 30; VInt 50]);
                            (lit "PM10", [VInt 40; VInt 60]);
                            (lit "Predicted_AQI", Scenario.big_values)]))
       (preamble Scenario.aqi_features ++
        [St_button (lit "Predict AQI"); Model_predict Scenario.aqi_features;
         St_subheader (lit "Prediction Results");
         St_write (mkDF 2 [(lit "PM2.5", [VInt 30; VInt 50]);
                           (lit "PM10", [VInt 40; VInt 60]);
                           (lit "Predicted_AQI", Scenario.big_values)]);
         St_error (lit "Prediction failed: "
                   ++ exn_str Scenario.conversion_error)]))
  /\ downloads
       (trace (snd (run (Scenario.strict_world (Some Scenario.no_aqi_csv) true
                           (Ok (Scenario.constant Scenario.big_values)))))) = []
  /\ column PREDICTED
       (mkDF 2 [(lit "PM2.5", [VInt 30; VInt 50]);
                (lit "PM10", [VInt 40; VInt 60]);
                (lit "Predicted_AQI", Scenario.big_values)])
     = Some Scenario.big_values.
Proof.
  apply (display_failure_reported
           (Scenario.strict_world (Some Scenario.no_aqi_csv) true
              (Ok (Scenario.constant Scenario.big_values)))
           Scenario.no_aqi_csv Scenario.aqi_features Scenario.aqi_features
           (mkDF 2 [(lit "PM2.5", [VInt 30; VInt 50]);
                    (lit "PM10", [VInt 40; VInt 60]);
                    (lit "Predicted_AQI", Scenario.big_values)])
           (Scenario.constant Scenario.big_values) Scenario.big_values
           Scenario.conversion_error);
    vm_compute; reflexivity.
Defined.

(** ** Quoting *)

